(** * Touch calculator for the STM32F429 Discovery board

    A shallow embedding of [User/main.c]: the calculator engine
    ([Calculator_Reset] ... [Calculator_HandleButton]), the button table with
    its hit test ([Calculator_FindButton]) and the body of the control loop of
    [main], followed by the properties of the specification.

    Conventions of the embedding:
    - [double] is IEEE 754 binary64, taken from the Standard Library's
      executable specification [SpecFloat] (precision 53, [emax] 1024);
    - [char] is [ascii]; a [char] array is a [list ascii] and the C string it
      holds is the prefix before the first NUL;
    - [uint16_t], [int8_t], [uint32_t] values are [Z], [size_t] is [nat];
    - a function that writes through [CalculatorState *] takes the state and
      returns the new one. *)

From Stdlib Require Import ZArith Lia Bool List Ascii String.
From Stdlib Require Import SpecFloat.
Import ListNotations.

Local Open Scope Z_scope.

(* ================================================================== *)
(** ** [double] *)

Module Double.

Definition prec : Z := 53.
Definition emax : Z := 1024.

Definition double : Type := spec_float.

(** The literal [0.0]. *)
Definition zero : double := S754_zero false.

Definition add : double -> double -> double := SFadd prec emax.
Definition sub : double -> double -> double := SFsub prec emax.
Definition mul : double -> double -> double := SFmul prec emax.
Definition div : double -> double -> double := SFdiv prec emax.

(** C's [==] on doubles: false on NaN, true on zeros of either sign. *)
Definition eqb : double -> double -> bool := SFeqb.

(** The double nearest to [m / 10^k] (ties to even), for [0 <= m]. *)
Definition of_decimal (m k : Z) : double :=
  match m with
  | Zpos _ =>
      let '(q, e, l) := SFdiv_core_binary prec emax m 0 (10 ^ k) 0 in
      binary_round_aux prec emax false q e l
  | _ => zero
  end.

End Double.

Definition double : Type := Double.double.

(* ================================================================== *)
(** ** C strings in [char] arrays *)

Definition NUL : ascii := Ascii.zero.

(** [strlen]: number of characters before the first NUL.  On an array that
    holds no NUL the C function reads past the array (undefined); the model
    stops at the end of the array. *)
Fixpoint strlen (a : list ascii) : nat :=
  match a with
  | [] => 0%nat
  | c :: r => if Ascii.eqb c NUL then 0%nat else S (strlen r)
  end.

(** The string held by the array: the characters before the first NUL. *)
Fixpoint cstr (a : list ascii) : list ascii :=
  match a with
  | [] => []
  | c :: r => if Ascii.eqb c NUL then [] else c :: cstr r
  end.

(** [strchr(a, c)]: index of the first [c] in the string (the terminator
    counts as part of the string), [None] for the NULL pointer. *)
Fixpoint strchr (a : list ascii) (c : ascii) : option nat :=
  match a with
  | [] => None
  | d :: r =>
      if Ascii.eqb d c then Some 0%nat
      else if Ascii.eqb d NUL then None
      else option_map S (strchr r c)
  end.

(** [a[i] = v].  The engine only writes inside the array. *)
Fixpoint store (a : list ascii) (i : nat) (v : ascii) : list ascii :=
  match a, i with
  | [], _ => []
  | _ :: r, O => v :: r
  | c :: r, S j => c :: store r j v
  end.

(** [a[0]], with the terminator for an array of no cells. *)
Definition first_char (a : list ascii) : ascii := nth 0 a NUL.

(** The array holds a terminated string: the representation invariant of
    [char input[INPUT_BUFFER_SIZE]]. *)
Definition terminated (n : nat) (a : list ascii) : Prop :=
  List.length a = n /\ (strlen a < n)%nat.

(* ================================================================== *)
(** ** Types of [main.c] *)

Definition DISPLAY_HEIGHT : Z := 80.
Definition BUTTON_COLUMNS : Z := 4.
Definition BUTTON_ROWS : Z := 4.
Definition BUTTON_SPACING : Z := 4.
Definition BUTTON_START_X : Z := 6.
Definition BUTTON_START_Y : Z := DISPLAY_HEIGHT + 10.
Definition BUTTON_HEIGHT : Z := 55.
Definition INPUT_BUFFER_SIZE : nat := 17.

Inductive CalculatorButtonType : Type :=
| CALC_BUTTON_DIGIT
| CALC_BUTTON_OPERATOR
| CALC_BUTTON_CLEAR
| CALC_BUTTON_EQUALS.

Record CalculatorButton : Type := mkButton {
  btn_label : string;
  btn_x : Z;
  btn_y : Z;
  btn_w : Z;
  btn_h : Z;
  btn_type : CalculatorButtonType
}.

Record CalculatorState : Type := mkState {
  accumulator : double;
  currentOperator : ascii;
  hasAccumulator : bool;
  error : bool;
  input : list ascii
}.

Record TouchStatus : Type := mkTouch {
  touch_x : Z;
  touch_y : Z;
  touch_pressed : bool
}.

Definition CalculatorButtonType_eqb (t u : CalculatorButtonType) : bool :=
  match t, u with
  | CALC_BUTTON_DIGIT, CALC_BUTTON_DIGIT
  | CALC_BUTTON_OPERATOR, CALC_BUTTON_OPERATOR
  | CALC_BUTTON_CLEAR, CALC_BUTTON_CLEAR
  | CALC_BUTTON_EQUALS, CALC_BUTTON_EQUALS => true
  | _, _ => false
  end.

(** [button->label[0]]. *)
Definition label0 (b : CalculatorButton) : ascii :=
  match btn_label b with
  | EmptyString => NUL
  | String c _ => c
  end.

(** Field assignments [state->f = v]. *)
Definition set_accumulator (v : double) (s : CalculatorState) : CalculatorState :=
  mkState v (currentOperator s) (hasAccumulator s) (error s) (input s).
Definition set_currentOperator (v : ascii) (s : CalculatorState) : CalculatorState :=
  mkState (accumulator s) v (hasAccumulator s) (error s) (input s).
Definition set_hasAccumulator (v : bool) (s : CalculatorState) : CalculatorState :=
  mkState (accumulator s) (currentOperator s) v (error s) (input s).
Definition set_error (v : bool) (s : CalculatorState) : CalculatorState :=
  mkState (accumulator s) (currentOperator s) (hasAccumulator s) v (input s).
Definition set_input (v : list ascii) (s : CalculatorState) : CalculatorState :=
  mkState (accumulator s) (currentOperator s) (hasAccumulator s) (error s) v.

(** [memset(state->input, 0, sizeof(state->input))]. *)
Definition zeroed_input : list ascii := repeat NUL INPUT_BUFFER_SIZE.

(* ================================================================== *)
(** ** The calculator engine *)

Definition Calculator_Reset (s : CalculatorState) : CalculatorState :=
  set_input zeroed_input
    (set_error false
       (set_hasAccumulator false
          (set_currentOperator NUL
             (set_accumulator Double.zero s)))).

Definition Calculator_InputHasDecimal (s : CalculatorState) : bool :=
  match strchr (input s) "." with
  | Some _ => true
  | None => false
  end.

Definition Calculator_ClearInput (s : CalculatorState) : CalculatorState :=
  set_input zeroed_input s.

Definition Calculator_AppendInput (s : CalculatorState) (value : ascii)
  : CalculatorState :=
  let len := strlen (input s) in
  if (INPUT_BUFFER_SIZE <=? len + 1)%nat then s
  else if Ascii.eqb value "." && Calculator_InputHasDecimal s then s
  else set_input (store (store (input s) len value) (len + 1) NUL) s.

(** [Calculator_ApplyOperation(a, b, op, &error)]: the result and the
    value of [*error] afterwards. *)
Definition Calculator_ApplyOperation (a b : double) (op : ascii) (err : bool)
  : double * bool :=
  if Ascii.eqb op "+" then (Double.add a b, err)
  else if Ascii.eqb op "-" then (Double.sub a b, err)
  else if Ascii.eqb op "*" then (Double.mul a b, err)
  else if Ascii.eqb op "/" then
    if Double.eqb b Double.zero then (Double.zero, true)
    else (Double.div a b, err)
  else (b, err).

(** Ghost log of the engine: the operator argument of every call of
    [Calculator_ApplyOperation], oldest first. *)
Definition ApplyLog : Type := list ascii.

(* ================================================================== *)
(** ** State of [main] *)

(** [(uint16_t) z]. *)
Definition uint16 (z : Z) : Z := z mod 65536.

(** A reading of the touch controller: whether
    [TM_STMPE811_ReadTouch(&touchData)] returned
    [TM_STMPE811_State_Pressed], and the coordinates it left in
    [touchData]. *)
Record TouchData : Type := mkData {
  td_pressed : bool;
  td_x : Z;
  td_y : Z
}.

(** What the loop does to its collaborators, oldest first: calls of the
    engine and of the drawing functions. *)
Inductive Event : Type :=
| HandleButton_call (i : Z)
| DrawButton_call (i : Z) (pressed : bool)
| DrawDisplay_call (s : CalculatorState) (t : TouchStatus).

(** The locals of [main], with the events so far as a ghost field. *)
Record MainState : Type := mkMain {
  state : CalculatorState;
  lastButton : Z;
  touchStatus : TouchStatus;
  lastRenderedStatus : TouchStatus;
  stateDirty : bool;
  trace : list Event
}.

Definition set_state (v : CalculatorState) (m : MainState) : MainState :=
  mkMain v (lastButton m) (touchStatus m) (lastRenderedStatus m) (stateDirty m) (trace m).
Definition set_lastButton (v : Z) (m : MainState) : MainState :=
  mkMain (state m) v (touchStatus m) (lastRenderedStatus m) (stateDirty m) (trace m).
Definition set_touchStatus (v : TouchStatus) (m : MainState) : MainState :=
  mkMain (state m) (lastButton m) v (lastRenderedStatus m) (stateDirty m) (trace m).
Definition set_lastRenderedStatus (v : TouchStatus) (m : MainState) : MainState :=
  mkMain (state m) (lastButton m) (touchStatus m) v (stateDirty m) (trace m).
Definition set_stateDirty (v : bool) (m : MainState) : MainState :=
  mkMain (state m) (lastButton m) (touchStatus m) (lastRenderedStatus m) v (trace m).
Definition emit (e : Event) (m : MainState) : MainState :=
  mkMain (state m) (lastButton m) (touchStatus m) (lastRenderedStatus m) (stateDirty m)
         (trace m ++ [e]).

(** The contents of [state] before [Calculator_Reset(&state)] in [main];
    every field is overwritten by the reset. *)
Definition uninitialised : CalculatorState := mkState S754_nan NUL false false [].

(** Stands for an element outside the table. *)
Definition no_button : CalculatorButton := mkButton "" 0 0 0 0 CALC_BUTTON_DIGIT.

Section Firmware.

(** [atof] of the C library, as a function of the string held by the
    array it is given. *)
Variable atof : list ascii -> double.

(** [ILI9341_WIDTH], a constant of the display driver's header
    [tm_stm32f4_ili9341.h]. *)
Variable ILI9341_WIDTH : Z.

Definition Calculator_ParseInput (s : CalculatorState) : double :=
  if Ascii.eqb (first_char (input s)) NUL then Double.zero
  else atof (cstr (input s)).

Definition Calculator_HandleOperator (s : CalculatorState) (operatorChar : ascii)
  : CalculatorState * ApplyLog :=
  let value := Calculator_ParseInput s in
  let '(s1, calls) :=
    if negb (hasAccumulator s) then
      (set_hasAccumulator true (set_accumulator value s), [])
    else if negb (Ascii.eqb (currentOperator s) NUL)
            || negb (Ascii.eqb (first_char (input s)) NUL) then
      let '(r, e) :=
        Calculator_ApplyOperation (accumulator s) value (currentOperator s) (error s) in
      (set_accumulator r (set_error e s), [currentOperator s])
    else (s, []) in
  (set_currentOperator operatorChar (Calculator_ClearInput s1), calls).

Definition Calculator_HandleEquals (s : CalculatorState)
  : CalculatorState * ApplyLog :=
  if negb (hasAccumulator s) && negb (Ascii.eqb (first_char (input s)) NUL) then
    (Calculator_ClearInput
       (set_currentOperator NUL
          (set_hasAccumulator true
             (set_accumulator (Calculator_ParseInput s) s))), [])
  else if hasAccumulator s && negb (Ascii.eqb (currentOperator s) NUL) then
    let value := Calculator_ParseInput s in
    let '(r, e) :=
      Calculator_ApplyOperation (accumulator s) value (currentOperator s) (error s) in
    (Calculator_ClearInput
       (set_currentOperator NUL (set_accumulator r (set_error e s))),
     [currentOperator s])
  else (s, []).

Definition Calculator_HandleButton (s : CalculatorState) (button : CalculatorButton)
  : CalculatorState * ApplyLog :=
  if error s && negb (CalculatorButtonType_eqb (btn_type button) CALC_BUTTON_CLEAR)
  then (s, [])
  else
    match btn_type button with
    | CALC_BUTTON_DIGIT => (Calculator_AppendInput s (label0 button), [])
    | CALC_BUTTON_OPERATOR => Calculator_HandleOperator s (label0 button)
    | CALC_BUTTON_CLEAR => (Calculator_Reset s, [])
    | CALC_BUTTON_EQUALS => Calculator_HandleEquals s
    end.

(* ---------------------------------------------------------------- *)
(** *** The button table and the hit test *)

Definition BUTTON_WIDTH : Z :=
  Z.quot (ILI9341_WIDTH - BUTTON_START_X * 2 - BUTTON_SPACING * (BUTTON_COLUMNS - 1))
         BUTTON_COLUMNS.

Definition column_x (k : Z) : Z := BUTTON_START_X + k * (BUTTON_WIDTH + BUTTON_SPACING).
Definition row_y (k : Z) : Z := BUTTON_START_Y + k * (BUTTON_HEIGHT + BUTTON_SPACING).

(** An initialiser of the grid; the fields are [uint16_t]. *)
Definition key (l : string) (col row : Z) (t : CalculatorButtonType) : CalculatorButton :=
  mkButton l (uint16 (column_x col)) (uint16 (row_y row))
           (uint16 BUTTON_WIDTH) (uint16 BUTTON_HEIGHT) t.

Definition buttons : list CalculatorButton :=
  [ key "7" 0 0 CALC_BUTTON_DIGIT;
    key "8" 1 0 CALC_BUTTON_DIGIT;
    key "9" 2 0 CALC_BUTTON_DIGIT;
    key "/" 3 0 CALC_BUTTON_OPERATOR;
    key "4" 0 1 CALC_BUTTON_DIGIT;
    key "5" 1 1 CALC_BUTTON_DIGIT;
    key "6" 2 1 CALC_BUTTON_DIGIT;
    key "*" 3 1 CALC_BUTTON_OPERATOR;
    key "1" 0 2 CALC_BUTTON_DIGIT;
    key "2" 1 2 CALC_BUTTON_DIGIT;
    key "3" 2 2 CALC_BUTTON_DIGIT;
    key "-" 3 2 CALC_BUTTON_OPERATOR;
    key "0" 0 3 CALC_BUTTON_DIGIT;
    key "." 1 3 CALC_BUTTON_DIGIT;
    key "C" 2 3 CALC_BUTTON_CLEAR;
    key "+" 3 3 CALC_BUTTON_OPERATOR;
    mkButton "=" (uint16 BUTTON_START_X) (uint16 (row_y 4))
             (uint16 (BUTTON_WIDTH * 4 + BUTTON_SPACING * 3)) (uint16 BUTTON_HEIGHT)
             CALC_BUTTON_EQUALS ].

(** [&buttons[i]]; the loop only uses indices returned by the hit test. *)
Definition button_at (i : Z) : CalculatorButton :=
  nth (Z.to_nat i) buttons no_button.

(** The test of the [for] loop of [Calculator_FindButton]; the operands
    are promoted to [int], so the sums do not wrap. *)
Definition contains (btn : CalculatorButton) (x y : Z) : bool :=
  (btn_x btn <=? x) && (x <=? btn_x btn + btn_w btn)
  && (btn_y btn <=? y) && (y <=? btn_y btn + btn_h btn).

(** The [for] loop from index [i] on, over the rest [bs] of the table. *)
Fixpoint find_from (bs : list CalculatorButton) (i : Z) (x y : Z) : Z :=
  match bs with
  | [] => -1
  | btn :: rest => if contains btn x y then i else find_from rest (i + 1) x y
  end.

Definition Calculator_FindButton (x y : Z) : Z := find_from buttons 0 x y.

(* ---------------------------------------------------------------- *)
(** *** The control loop of [main] *)

Definition main_init : MainState :=
  let touchStatus := mkTouch 0 0 false in
  let state := Calculator_Reset uninitialised in
  mkMain state (-1) touchStatus touchStatus true
         (DrawDisplay_call state touchStatus
            :: map (fun i => DrawButton_call (Z.of_nat i) false) (seq 0 (List.length buttons))).

(** First statement of the loop body: read the touch controller, and
    activate or release a button. *)
Definition dispatch (touchData : TouchData) (m : MainState) : MainState :=
  if td_pressed touchData then
    let m1 := set_touchStatus (mkTouch (td_x touchData) (td_y touchData) true) m in
    let pressed := Calculator_FindButton (td_x touchData) (td_y touchData) in
    if (0 <=? pressed) && negb (pressed =? lastButton m1) then
      let m2 := set_state (fst (Calculator_HandleButton (state m1) (button_at pressed))) m1 in
      let m3 := emit (HandleButton_call pressed) m2 in
      let m4 := set_stateDirty true m3 in
      let m5 := emit (DrawButton_call pressed true) m4 in
      set_lastButton pressed m5
    else m1
  else
    let m1 := set_touchStatus (mkTouch 0 0 false) m in
    if 0 <=? lastButton m1 then
      set_lastButton (-1) (emit (DrawButton_call (lastButton m1) false) m1)
    else m1.

(** Second statement of the loop body: redraw the display when needed. *)
Definition render_gate (m : MainState) : MainState :=
  if stateDirty m
     || negb (Bool.eqb (touch_pressed (touchStatus m)) (touch_pressed (lastRenderedStatus m)))
     || negb (touch_x (touchStatus m) =? touch_x (lastRenderedStatus m))
     || negb (touch_y (touchStatus m) =? touch_y (lastRenderedStatus m))
  then
    set_stateDirty false
      (set_lastRenderedStatus (touchStatus m)
         (emit (DrawDisplay_call (state m) (touchStatus m)) m))
  else m.

(** One iteration of [while (1)]. *)
Definition loop_body (touchData : TouchData) (m : MainState) : MainState :=
  render_gate (dispatch touchData m).

(** The iterations driven by the successive readings [ts]. *)
Definition run (ts : list TouchData) (m : MainState) : MainState :=
  fold_left (fun m t => loop_body t m) ts m.

(** The engine alone, driven by a sequence of buttons; the ghost logs
    are concatenated. *)
Fixpoint press_all (bs : list CalculatorButton) (s : CalculatorState)
  : CalculatorState * ApplyLog :=
  match bs with
  | [] => (s, [])
  | b :: rest =>
      let '(s1, l1) := Calculator_HandleButton s b in
      let '(s2, l2) := press_all rest s1 in
      (s2, l1 ++ l2)
  end.

End Firmware.

(* ================================================================== *)
(** ** An instance to run the model on *)

(** Value of a decimal digit. *)
Definition digit_value (c : ascii) : option Z :=
  let n := Z.of_nat (nat_of_ascii c) in
  if (48 <=? n) && (n <=? 57) then Some (n - 48) else None.

(** Reads digits: [m] is the number read so far and [k] counts the digits;
    returns both with the unread rest. *)
Fixpoint scan_digits (l : list ascii) (m k : Z) : Z * Z * list ascii :=
  match l with
  | [] => (m, k, [])
  | c :: r =>
      match digit_value c with
      | Some d => scan_digits r (10 * m + d) (k + 1)
      | None => (m, k, l)
      end
  end.

(** [atof] on the numerals the keypad can type: digits with an optional
    point, correctly rounded; whatever follows the numeral is ignored.
    Signs, exponents and leading blanks, which no key produces, are not
    recognised. *)
Definition atof_decimal (l : list ascii) : double :=
  let '(m, _, rest) := scan_digits l 0 0 in
  match rest with
  | c :: frac =>
      if Ascii.eqb c "." then
        let '(m', k, _) := scan_digits frac m 0 in Double.of_decimal m' k
      else Double.of_decimal m 0
  | [] => Double.of_decimal m 0
  end.

(** Width of the panel in portrait orientation (240 x 320 pixels). *)
Definition panel_width : Z := 240.

(** The table entry with a given label. *)
Definition key_of (l : string) : CalculatorButton :=
  match find (fun b => String.eqb (btn_label b) l) (buttons panel_width) with
  | Some b => b
  | None => no_button
  end.

(** A reading with the finger down at [(x, y)], and one with the finger up. *)
Definition touch_at (x y : Z) : TouchData := mkData true x y.
Definition no_touch : TouchData := mkData false 0 0.

(** The table entries with the given labels. *)
Definition keys (ls : list string) : list CalculatorButton := map key_of ls.

(** The engine state after the given keys, from the state [main] starts in. *)
Definition after (ls : list string) : CalculatorState :=
  fst (press_all atof_decimal (keys ls) (Calculator_Reset uninitialised)).

(** Some doubles. *)
Definition two : double := S754_finite false 4503599627370496 (-51).
Definition three : double := S754_finite false 6755399441055744 (-51).
Definition six : double := S754_finite false 6755399441055744 (-50).
Definition five : double := S754_finite false 5629499534213120 (-50).
Definition nine : double := S754_finite false 5066549580791808 (-49).
Definition ten : double := S754_finite false 5629499534213120 (-49).

(* ================================================================== *)
(** ** Vocabulary of the properties *)

(** Writing [c] over the terminator and a new terminator behind it. *)
Definition written (a : list ascii) (c : ascii) : list ascii :=
  store (store a (strlen a) c) (strlen a + 1) NUL.

(** Number of decimal points in the string held by the input buffer. *)
Definition decimal_points (s : CalculatorState) : nat :=
  count_occ ascii_dec (cstr (input s)) "."%char.

(** The state every reset produces. *)
Definition initial_state : CalculatorState :=
  mkState Double.zero NUL false false zeroed_input.

(** What the engine maintains about the input buffer. *)
Definition buffer_ok (s : CalculatorState) : Prop :=
  terminated INPUT_BUFFER_SIZE (input s) /\ (decimal_points s <= 1)%nat.

(** The operators of the keypad. *)
Definition arithmetic_operator (c : ascii) : Prop :=
  In c ["+"; "-"; "*"; "/"]%char.

(** The calls of [Calculator_HandleButton] in a trace: the indices of the
    buttons activated, oldest first. *)
Fixpoint activations (tr : list Event) : list Z :=
  match tr with
  | [] => []
  | HandleButton_call i :: r => i :: activations r
  | _ :: r => activations r
  end.

(** The finger is down inside the rectangle of button [i]. *)
Definition inside (W i : Z) (t : TouchData) : Prop :=
  td_pressed t = true /\ contains (button_at W i) (td_x t) (td_y t) = true.

(** The finger is down where the hit test finds no button. *)
Definition outside (W : Z) (t : TouchData) : Prop :=
  td_pressed t = true /\ Calculator_FindButton W (td_x t) (td_y t) = -1.

(* ================================================================== *)
(** ** Further vocabulary: typing, evaluation, the loop, the labels *)

(** The text with every decimal point after the first removed; [seen]
    tells that a point came before. *)
Fixpoint one_point (seen : bool) (ds : list ascii) : list ascii :=
  match ds with
  | [] => []
  | c :: r =>
      if Ascii.eqb c "." then
        if seen then one_point true r else c :: one_point true r
      else c :: one_point seen r
  end.

(** The text holds a decimal point. *)
Definition has_point (t : list ascii) : bool := existsb (Ascii.eqb ".") t.

(** A text the buffer takes as it is typed: no terminator, at most 16
    characters, at most one point. *)
Definition typable (ds : list ascii) : Prop :=
  ~ In NUL ds /\ (List.length ds <= 16)%nat /\ (count_occ ascii_dec ds "."%char <= 1)%nat.

(** The value [Calculator_ParseInput] gives to a text: [0.0] for the empty
    one, [atof] of it otherwise. *)
Definition entered (atof : list ascii -> double) (t : list ascii) : double :=
  match t with
  | [] => Double.zero
  | _ :: _ => atof t
  end.

(** Buttons of the digit kind (the digits and the point), none labelled by
    the terminator. *)
Definition digit_keys (bs : list CalculatorButton) : Prop :=
  Forall (fun b => btn_type b = CALC_BUTTON_DIGIT /\ label0 b <> NUL) bs.

(** No two neighbours of the list are equal. *)
Fixpoint adjacent_distinct (l : list Z) : Prop :=
  match l with
  | [] => True
  | a :: r =>
      match r with
      | [] => True
      | b :: _ => a <> b /\ adjacent_distinct r
      end
  end.

(** The arguments of the latest [Calculator_DrawDisplay] of a trace. *)
Fixpoint last_display (tr : list Event) : option (CalculatorState * TouchStatus) :=
  match tr with
  | [] => None
  | e :: r =>
      match last_display r with
      | Some d => Some d
      | None =>
          match e with
          | DrawDisplay_call s t => Some (s, t)
          | _ => None
          end
      end
  end.

(** The event names an element of the table of 17 buttons. *)
Definition event_in_table (e : Event) : Prop :=
  match e with
  | HandleButton_call i => 0 <= i < 17
  | DrawButton_call i _ => 0 <= i < 17
  | DrawDisplay_call _ _ => True
  end.

(** The label placement of [Calculator_DrawButton]: [textWidth], [textX]
    and [textY], all [uint16_t]; the differences and quotients are taken
    in [int], where the division truncates. *)
Definition label_position (button : CalculatorButton) : Z * Z * Z :=
  let textWidth := uint16 (Z.of_nat (String.length (btn_label button)) * 11) in
  let textHeight := 18 in
  let textX := uint16 (btn_x button + Z.quot (btn_w button - textWidth) 2) in
  let textY := uint16 (btn_y button + Z.quot (btn_h button - textHeight) 2) in
  (textWidth, textX, textY).

(* ================================================================== *)
(** * Properties *)

(** ** C strings *)

Lemma strlen_cstr (a : list ascii) : strlen a = List.length (cstr a).
Proof.
  induction a as [|d r IH]; simpl; [reflexivity|].
  destruct (Ascii.eqb d NUL); simpl; congruence.
Qed.

Lemma cstr_no_NUL (a : list ascii) : ~ In NUL (cstr a).
Proof.
  induction a as [|d r IH]; simpl; [tauto|].
  destruct (Ascii.eqb_spec d NUL) as [E|E]; simpl; [tauto|].
  intros [H|H]; [exact (E H) | exact (IH H)].
Qed.

Lemma strlen_le_length (a : list ascii) : (strlen a <= List.length a)%nat.
Proof.
  induction a as [|d r IH]; simpl; [lia|].
  destruct (Ascii.eqb d NUL); lia.
Qed.

(** [strchr] finds a character other than the terminator exactly when the
    string holds it. *)
Lemma strchr_found (a : list ascii) (c : ascii) :
  c <> NUL -> (strchr a c <> None <-> In c (cstr a)).
Proof.
  intros Hc. induction a as [|d r IH]; simpl; [tauto|].
  destruct (Ascii.eqb_spec d c) as [E|E].
  - subst d. destruct (Ascii.eqb_spec c NUL) as [E'|E']; [contradiction|].
    simpl. split; [auto | discriminate].
  - destruct (Ascii.eqb_spec d NUL) as [E'|E']; simpl.
    + tauto.
    + destruct (strchr r c); simpl in *.
      * split; [intros _; right; apply IH; discriminate | discriminate].
      * split; [congruence | intros [H|H]; [contradiction | apply IH; exact H]].
Qed.

Lemma store_length (a : list ascii) (i : nat) (v : ascii) :
  List.length (store a i v) = List.length a.
Proof.
  revert i; induction a as [|d r IH]; intros [|j]; simpl; auto.
Qed.

Lemma nth_store_same (a : list ascii) (i : nat) (v : ascii) :
  (i < List.length a)%nat -> nth i (store a i v) NUL = v.
Proof.
  revert i; induction a as [|d r IH]; intros [|j] H; simpl in *; try lia; auto.
  apply IH; lia.
Qed.

Lemma nth_store_other (a : list ascii) (i j : nat) (v : ascii) :
  i <> j -> nth j (store a i v) NUL = nth j a NUL.
Proof.
  revert i j; induction a as [|d r IH]; intros [|i] [|j] H; simpl; auto; try lia.
Qed.

Lemma cstr_written (a : list ascii) (c : ascii) :
  (strlen a + 1 < List.length a)%nat -> c <> NUL ->
  cstr (written a c) = cstr a ++ [c].
Proof.
  unfold written. induction a as [|d r IH]; simpl; intros Hl Hc; [lia|].
  destruct (Ascii.eqb_spec d NUL) as [E|E]; simpl.
  - destruct r as [|e r']; simpl in *; [lia|].
    destruct (Ascii.eqb_spec c NUL); [contradiction|]. reflexivity.
  - destruct (Ascii.eqb_spec d NUL); [contradiction|].
    f_equal. apply IH; [lia | exact Hc].
Qed.

Lemma cstr_written_NUL (a : list ascii) : cstr (written a NUL) = cstr a.
Proof.
  unfold written. induction a as [|d r IH]; simpl; [reflexivity|].
  destruct (Ascii.eqb_spec d NUL) as [E|E]; simpl.
  - reflexivity.
  - destruct (Ascii.eqb_spec d NUL); [contradiction|]. f_equal. exact IH.
Qed.

Lemma cstr_app (l r : list ascii) : ~ In NUL l -> cstr (l ++ r) = l ++ cstr r.
Proof.
  induction l as [|d l IH]; simpl; intros H; [reflexivity|].
  destruct (Ascii.eqb_spec d NUL) as [E|E]; [tauto|].
  f_equal. apply IH. tauto.
Qed.

Lemma cstr_zeroed_input : cstr zeroed_input = [].
Proof. reflexivity. Qed.

Lemma terminated_zeroed_input : terminated INPUT_BUFFER_SIZE zeroed_input.
Proof. split; [reflexivity | simpl; unfold INPUT_BUFFER_SIZE; lia]. Qed.


Lemma Calculator_Reset_initial (s : CalculatorState) : Calculator_Reset s = initial_state.
Proof. reflexivity. Qed.

(* ================================================================== *)
(** ** The input buffer *)

Lemma InputHasDecimal_true (s : CalculatorState) :
  Calculator_InputHasDecimal s = true <-> In "."%char (cstr (input s)).
Proof.
  unfold Calculator_InputHasDecimal.
  rewrite <- (strchr_found (input s) "."%char) by discriminate.
  destruct (strchr (input s) "."); split; intros H; congruence.
Qed.

Lemma AppendInput_rejected (s : CalculatorState) (c : ascii) :
  terminated INPUT_BUFFER_SIZE (input s) ->
  List.length (cstr (input s)) = 16%nat \/ (c = "."%char /\ In "."%char (cstr (input s))) ->
  Calculator_AppendInput s c = s.
Proof.
  intros _ H. unfold Calculator_AppendInput.
  rewrite strlen_cstr.
  destruct H as [H|[Hc H]].
  - rewrite H. reflexivity.
  - destruct (_ <=? _)%nat; [reflexivity|].
    apply InputHasDecimal_true in H. rewrite H. subst c. reflexivity.
Qed.

Lemma AppendInput_accepted (s : CalculatorState) (c : ascii) :
  terminated INPUT_BUFFER_SIZE (input s) ->
  ~ (List.length (cstr (input s)) = 16%nat \/ (c = "."%char /\ In "."%char (cstr (input s)))) ->
  Calculator_AppendInput s c = set_input (written (input s) c) s.
Proof.
  intros [Hl Ht] H. unfold Calculator_AppendInput, written.
  rewrite strlen_cstr in *. unfold INPUT_BUFFER_SIZE in *.
  destruct (Nat.leb_spec 17 (List.length (cstr (input s)) + 1)) as [L|L].
  - exfalso. apply H. left. lia.
  - destruct (Ascii.eqb_spec c ".") as [E|E]; simpl; [|reflexivity].
    destruct (Calculator_InputHasDecimal s) eqn:D; [|reflexivity].
    exfalso. apply H. right. split; [exact E | apply InputHasDecimal_true; exact D].
Qed.

Lemma reject_dec (s : CalculatorState) (c : ascii) :
  let reject :=
    List.length (cstr (input s)) = 16%nat \/ (c = "."%char /\ In "."%char (cstr (input s))) in
  reject \/ ~ reject.
Proof.
  simpl. destruct (Nat.eq_dec (List.length (cstr (input s))) 16) as [E|E]; [tauto|].
  destruct (ascii_dec c ".") as [P|P]; [|tauto].
  destruct (in_dec ascii_dec "."%char (cstr (input s))); tauto.
Qed.

Lemma AppendInput_ok (s : CalculatorState) (c : ascii) :
  buffer_ok s -> buffer_ok (Calculator_AppendInput s c).
Proof.
  intros [Ht Hd].
  destruct (reject_dec s c) as [R|R].
  - rewrite (AppendInput_rejected s c Ht R). split; assumption.
  - rewrite (AppendInput_accepted s c Ht R).
    assert (Hlen : (strlen (input s) + 1 < List.length (input s))%nat).
    { destruct Ht as [Hl Hs]. rewrite strlen_cstr in *. unfold INPUT_BUFFER_SIZE in *. lia. }
    destruct (Ascii.eqb_spec c NUL) as [E|E].
    + subst c. unfold buffer_ok, decimal_points, terminated in *. simpl.
      rewrite strlen_cstr, cstr_written_NUL, <- strlen_cstr.
      unfold written. rewrite !store_length. tauto.
    + unfold buffer_ok, decimal_points, terminated in *. simpl.
      rewrite strlen_cstr, (cstr_written _ _ Hlen E), count_occ_app, length_app.
      unfold written. rewrite !store_length, <- strlen_cstr. simpl.
      destruct Ht as [Hl Hs]. split; [split; [exact Hl | lia]|].
      destruct (ascii_dec c ".") as [P|P]; [|lia].
      assert (Z0 : count_occ ascii_dec (cstr (input s)) "."%char = 0%nat).
      { apply count_occ_not_In. intros I. apply R. right. split; [exact P | exact I]. }
      lia.
Qed.

(** C7.  On a buffer holding a terminated string, [Calculator_AppendInput]
    leaves the state as it is exactly in two cases: the string already has
    16 characters, or the character is a point and the string already holds
    one.  In every other case the character is written at the end of the
    string and a terminator behind it, no other cell changes, and the string
    held afterwards is the C string of the old characters followed by the
    new one: the old string with the character at its end, and a different
    state, unless the character is the terminator itself, which no key
    carries. *)
Theorem AppendInput_rejects_when_full_or_second_point (s : CalculatorState) (c : ascii) :
  terminated INPUT_BUFFER_SIZE (input s) ->
  let text := cstr (input s) in
  let rejected := List.length text = 16%nat \/ (c = "."%char /\ In "."%char text) in
  (rejected -> Calculator_AppendInput s c = s) /\
  (~ rejected ->
   exists a',
     Calculator_AppendInput s c = set_input a' s /\
     List.length a' = INPUT_BUFFER_SIZE /\
     nth (List.length text) a' NUL = c /\
     nth (S (List.length text)) a' NUL = NUL /\
     (forall i, i <> List.length text -> i <> S (List.length text) ->
                nth i a' NUL = nth i (input s) NUL) /\
     cstr a' = cstr (text ++ [c]) /\
     (c <> NUL -> cstr a' = text ++ [c] /\ Calculator_AppendInput s c <> s)).
Proof.
  intros Ht text rejected. split.
  - intros R. apply AppendInput_rejected; assumption.
  - intros R. exists (written (input s) c).
    pose proof (AppendInput_accepted s c Ht R) as Hw.
    assert (Hlen : (strlen (input s) + 1 < List.length (input s))%nat).
    { destruct Ht as [Hl Hs]. rewrite strlen_cstr in *. unfold INPUT_BUFFER_SIZE in *.
      subst text rejected. lia. }
    subst text. rewrite <- strlen_cstr.
    split; [exact Hw|]. unfold written at 1 2 3 4.
    split; [rewrite !store_length; apply Ht|].
    split; [rewrite nth_store_other by lia; apply nth_store_same; lia|].
    split; [replace (S (strlen (input s))) with (strlen (input s) + 1)%nat by lia;
            apply nth_store_same; rewrite store_length; lia|].
    split; [intros i H1 H2; rewrite !nth_store_other by lia; reflexivity|].
    fold (written (input s) c). split.
    { rewrite (cstr_app _ _ (cstr_no_NUL (input s))). simpl.
      destruct (Ascii.eqb_spec c NUL) as [E|E].
      - subst c. rewrite app_nil_r. apply cstr_written_NUL.
      - apply cstr_written; assumption. }
    intros Hc. pose proof (cstr_written _ _ Hlen Hc) as Hs. split; [exact Hs|].
    rewrite Hw. intros E. apply (f_equal (fun s => List.length (cstr (input s)))) in E.
    simpl in E. rewrite Hs, length_app in E. simpl in E. lia.
Qed.

Lemma AppendInput_rejects_witness :
  Calculator_AppendInput (after ["1"; "."; "5"]%string) "." = after ["1"; "."; "5"]%string.
Proof.
  refine (proj1 (AppendInput_rejects_when_full_or_second_point
                   (after ["1"; "."; "5"]%string) "." _) _).
  - split; [reflexivity | vm_compute; lia].
  - right. split; [reflexivity | vm_compute; tauto].
Defined.

(* ================================================================== *)
(** ** The engine *)

Lemma input_HandleOperator (atof : list ascii -> double) (s : CalculatorState) (op : ascii) :
  input (fst (Calculator_HandleOperator atof s op)) = zeroed_input.
Proof.
  unfold Calculator_HandleOperator.
  destruct (negb (hasAccumulator s)); [reflexivity|].
  destruct (_ || _); [|reflexivity].
  destruct (Calculator_ApplyOperation _ _ _ _); reflexivity.
Qed.

Lemma input_HandleEquals (atof : list ascii -> double) (s : CalculatorState) :
  input (fst (Calculator_HandleEquals atof s)) = zeroed_input
  \/ fst (Calculator_HandleEquals atof s) = s.
Proof.
  unfold Calculator_HandleEquals.
  destruct (_ && _); [left; reflexivity|].
  destruct (_ && _); [|right; reflexivity].
  destruct (Calculator_ApplyOperation _ _ _ _); left; reflexivity.
Qed.

Lemma buffer_ok_zeroed (s : CalculatorState) : input s = zeroed_input -> buffer_ok s.
Proof.
  intros E. unfold buffer_ok, decimal_points. rewrite E.
  split; [apply terminated_zeroed_input | simpl; lia].
Qed.

Lemma HandleButton_ok (atof : list ascii -> double) (s : CalculatorState)
      (b : CalculatorButton) :
  buffer_ok s -> buffer_ok (fst (Calculator_HandleButton atof s b)).
Proof.
  intros H. unfold Calculator_HandleButton.
  destruct (_ && _); [exact H|].
  destruct (btn_type b); simpl.
  - apply AppendInput_ok; exact H.
  - apply buffer_ok_zeroed, input_HandleOperator.
  - apply buffer_ok_zeroed; reflexivity.
  - destruct (input_HandleEquals atof s) as [E|E];
      [apply buffer_ok_zeroed; exact E | rewrite E; exact H].
Qed.

Lemma press_all_ok (atof : list ascii -> double) (bs : list CalculatorButton) :
  forall s, buffer_ok s -> buffer_ok (fst (press_all atof bs s)).
Proof.
  induction bs as [|b rest IH]; intros s H; simpl; [exact H|].
  pose proof (HandleButton_ok atof s b H) as H1.
  destruct (Calculator_HandleButton atof s b) as [s1 l1]; simpl in H1.
  specialize (IH s1 H1).
  destruct (press_all atof rest s1) as [s2 l2]; exact IH.
Qed.

(** C8.  Whatever buttons are handled after the reset [main] starts with
    (of any kind and with any label), the string in the input buffer holds
    at most one decimal point. *)
Theorem input_has_at_most_one_decimal_point
        (atof : list ascii -> double) (bs : list CalculatorButton) :
  (decimal_points (fst (press_all atof bs (Calculator_Reset uninitialised))) <= 1)%nat.
Proof.
  apply (press_all_ok atof bs). apply buffer_ok_zeroed. reflexivity.
Qed.

(** C6.  Handling the clear button in any state, with or without the error
    flag, gives the state of [Calculator_Reset]: accumulator [0.0], no
    pending operator, no accumulator, no error and an input buffer of
    zeros, whose string is empty.  It is the state [main] starts in. *)
Theorem clear_yields_the_initial_state
        (atof : list ascii -> double) (s : CalculatorState)
        (l : string) (x y w h : Z) :
  let s' := fst (Calculator_HandleButton atof s (mkButton l x y w h CALC_BUTTON_CLEAR)) in
  s' = Calculator_Reset s /\
  s' = mkState (S754_zero false) NUL false false (repeat NUL 17) /\
  cstr (input s') = [] /\
  forall W, state (main_init W) = s'.
Proof.
  unfold Calculator_HandleButton; simpl.
  rewrite andb_false_r. simpl. repeat split; reflexivity.
Qed.

(** C4.  While the error flag is set, handling a digit, operator or equals
    button changes nothing in the state (and applies no operation);
    handling the clear button does change it: the flag is false
    afterwards. *)
Theorem error_blocks_everything_but_clear
        (atof : list ascii -> double) (s : CalculatorState) (b : CalculatorButton) :
  error s = true ->
  (btn_type b <> CALC_BUTTON_CLEAR -> Calculator_HandleButton atof s b = (s, [])) /\
  (btn_type b = CALC_BUTTON_CLEAR ->
   fst (Calculator_HandleButton atof s b) <> s /\
   error (fst (Calculator_HandleButton atof s b)) = false).
Proof.
  intros E. unfold Calculator_HandleButton. rewrite E. split.
  - intros H. destruct (btn_type b); simpl; congruence.
  - intros H. rewrite H. simpl. split; [|reflexivity].
    intros C. rewrite <- C in E. discriminate.
Qed.

Lemma error_blocks_witness :
  Calculator_HandleButton atof_decimal (after ["5"; "/"; "0"; "="]%string) (key_of "2")
  = (after ["5"; "/"; "0"; "="]%string, []).
Proof.
  refine (proj1 (error_blocks_everything_but_clear atof_decimal
                   (after ["5"; "/"; "0"; "="]%string) (key_of "2") _) _).
  - reflexivity.
  - vm_compute. discriminate.
Defined.

Lemma Double_eqb_zero (b : double) :
  Double.eqb b Double.zero = true <-> exists sgn, b = S754_zero sgn.
Proof.
  split.
  - destruct b as [sgn|sgn| |sgn m e]; try discriminate;
      try (destruct sgn; discriminate).
    intros _. exists sgn. reflexivity.
  - intros [sgn E]. subst b. reflexivity.
Qed.

(** C5.  Dividing by a zero of either sign sets the error flag and returns
    [0.0]; dividing by anything else (NaN included, which compares unequal
    to zero) returns the IEEE quotient and leaves the flag as it was.  A
    divisor compares equal to [0.0] exactly when it is one of the two
    zeros. *)
Theorem division_by_zero_sets_error (a b : double) (err : bool) :
  (forall sgn, Calculator_ApplyOperation a (S754_zero sgn) "/" err = (Double.zero, true)) /\
  ((forall sgn, b <> S754_zero sgn) ->
   Calculator_ApplyOperation a b "/" err = (Double.div a b, err)) /\
  (Double.eqb b Double.zero = true <-> exists sgn, b = S754_zero sgn).
Proof.
  split; [intros sgn; reflexivity|]. split; [|apply Double_eqb_zero].
  intros H. unfold Calculator_ApplyOperation. simpl.
  destruct (Double.eqb b Double.zero) eqn:E; [|reflexivity].
  apply Double_eqb_zero in E. destruct E as [sgn E]. destruct (H sgn E).
Qed.

Lemma division_witness :
  Calculator_ApplyOperation six two "/" false = (three, false).
Proof.
  refine (proj1 (proj2 (division_by_zero_sets_error six two false)) _).
  intros sgn. discriminate.
Defined.

(* ================================================================== *)
(** ** Two operators in a row *)

Lemma HandleButton_operator (atof : list ascii -> double) (s : CalculatorState)
      (b : CalculatorButton) :
  error s = false -> btn_type b = CALC_BUTTON_OPERATOR ->
  Calculator_HandleButton atof s b = Calculator_HandleOperator atof s (label0 b).
Proof.
  intros E T. unfold Calculator_HandleButton. rewrite E, T. reflexivity.
Qed.

Lemma HandleButton_blocked (atof : list ascii -> double) (s : CalculatorState)
      (b : CalculatorButton) :
  error s = true -> btn_type b <> CALC_BUTTON_CLEAR ->
  Calculator_HandleButton atof s b = (s, []).
Proof.
  intros E T. unfold Calculator_HandleButton. rewrite E.
  destruct (btn_type b); simpl; congruence.
Qed.

(** What every [Calculator_HandleOperator] leaves behind. *)
Lemma after_HandleOperator (atof : list ascii -> double) (s : CalculatorState) (op : ascii) :
  let s1 := fst (Calculator_HandleOperator atof s op) in
  hasAccumulator s1 = true /\ currentOperator s1 = op /\ input s1 = zeroed_input.
Proof.
  unfold Calculator_HandleOperator.
  destruct (hasAccumulator s) eqn:A; simpl; [|tauto].
  destruct (_ || _); [|simpl; tauto].
  destruct (Calculator_ApplyOperation _ _ _ _); simpl; tauto.
Qed.

(** The operator pressed on an empty buffer with [op1] pending. *)
Lemma HandleOperator_pending (atof : list ascii -> double) (s : CalculatorState)
      (op1 op2 : ascii) :
  hasAccumulator s = true -> currentOperator s = op1 -> op1 <> NUL ->
  input s = zeroed_input ->
  let r := Calculator_ApplyOperation (accumulator s) Double.zero op1 (error s) in
  Calculator_HandleOperator atof s op2
  = (mkState (fst r) op2 true (snd r) zeroed_input, [op1]).
Proof.
  intros A O N I. unfold Calculator_HandleOperator, Calculator_ParseInput.
  rewrite A, O, I. simpl.
  destruct (Ascii.eqb_spec op1 NUL); [contradiction|]. simpl.
  destruct (Calculator_ApplyOperation (accumulator s) Double.zero op1 (error s)).
  unfold set_currentOperator, Calculator_ClearInput, set_input, set_accumulator, set_error.
  simpl. rewrite A. reflexivity.
Qed.

Lemma Double_sub_zero (a : double) : Double.sub a Double.zero = a.
Proof. destruct a as [[|]|[|]| |sg m e]; reflexivity. Qed.

Lemma Double_add_zero (a : double) :
  a <> S754_zero true -> Double.add a Double.zero = a.
Proof. destruct a as [[|]|[|]| |sg m e]; intros H; try reflexivity. contradiction. Qed.

Lemma Double_mul_zero_finite (sg : bool) (m : positive) (e : Z) :
  Double.mul (S754_finite sg m e) Double.zero = S754_zero sg.
Proof. destruct sg; reflexivity. Qed.

(** C1 (as the code has it).  Let two operator buttons be handled one after
    the other, the first labelled [+], [-], [*] or [/].  If the error flag
    is set after the first, the second changes nothing.  Otherwise the
    second makes its own label the pending operator, and the accumulator
    [a] becomes the result of applying the first operator to [a] and [0.0]
    (the value of the empty buffer): [a] itself for [-], and for [+] unless
    [a] is the negative zero; [a * 0.0] for [*], a zero when [a] is finite;
    and for [/] the accumulator becomes [0.0] and the error flag is set. *)
Theorem second_operator_applies_first_to_zero
        (atof : list ascii -> double) (s : CalculatorState) (b1 b2 : CalculatorButton) :
  btn_type b1 = CALC_BUTTON_OPERATOR ->
  btn_type b2 = CALC_BUTTON_OPERATOR ->
  arithmetic_operator (label0 b1) ->
  let s1 := fst (Calculator_HandleButton atof s b1) in
  let s2 := fst (Calculator_HandleButton atof s1 b2) in
  let a := accumulator s1 in
  (error s1 = true -> s2 = s1) /\
  (error s1 = false ->
   currentOperator s2 = label0 b2 /\
   hasAccumulator s2 = true /\
   input s2 = zeroed_input /\
   (accumulator s2, error s2) = Calculator_ApplyOperation a Double.zero (label0 b1) false /\
   (label0 b1 = "-"%char -> accumulator s2 = a /\ error s2 = false) /\
   (label0 b1 = "+"%char ->
    accumulator s2 = Double.add a Double.zero /\ error s2 = false /\
    (a <> S754_zero true -> accumulator s2 = a)) /\
   (label0 b1 = "*"%char ->
    accumulator s2 = Double.mul a Double.zero /\ error s2 = false /\
    (forall sg m e, a = S754_finite sg m e -> accumulator s2 = S754_zero sg)) /\
   (label0 b1 = "/"%char -> accumulator s2 = Double.zero /\ error s2 = true)).
Proof.
  intros T1 T2 Op s1 s2 a. split.
  - intros E. subst s2. rewrite HandleButton_blocked; [reflexivity | exact E | congruence].
  - intros E.
    assert (E0 : error s = false).
    { destruct (error s) eqn:E0; [|reflexivity].
      subst s1. rewrite HandleButton_blocked in E; [|exact E0 | congruence].
      simpl in E. congruence. }
    assert (N : label0 b1 <> NUL).
    { intros C. rewrite C in Op. simpl in Op.
      destruct Op as [H|[H|[H|[H|[]]]]]; discriminate. }
    pose proof (after_HandleOperator atof s (label0 b1)) as H.
    rewrite <- (HandleButton_operator atof s b1 E0 T1) in H. fold s1 in H.
    destruct H as [A [O I]].
    pose proof (HandleOperator_pending atof s1 (label0 b1) (label0 b2) A O N I) as P.
    rewrite <- (HandleButton_operator atof s1 b2 E T2) in P. simpl in P.
    subst s2. rewrite P. fold a. rewrite E. simpl.
    split; [reflexivity|]. split; [reflexivity|]. split; [reflexivity|].
    split; [symmetry; apply surjective_pairing|].
    split; [|split; [|split]]; intros L; rewrite L; simpl.
    + split; [apply Double_sub_zero | reflexivity].
    + split; [reflexivity|]. split; [reflexivity | apply Double_add_zero].
    + split; [reflexivity|]. split; [reflexivity|].
      intros sg m e Ha. rewrite Ha. apply Double_mul_zero_finite.
    + split; reflexivity.
Qed.

Lemma second_operator_witness :
  accumulator (after ["9"; "+"; "-"]%string) = nine /\
  currentOperator (after ["9"; "+"; "-"]%string) = "-"%char.
Proof.
  pose proof (second_operator_applies_first_to_zero atof_decimal (after ["9"]%string)
                (key_of "+") (key_of "-") eq_refl eq_refl (or_introl eq_refl)) as H.
  destruct H as [_ H]. specialize (H eq_refl).
  destruct H as [Hop [_ [_ [_ [_ [Hplus _]]]]]].
  destruct (Hplus eq_refl) as [_ [_ Hacc]].
  split; [apply Hacc; discriminate | exact Hop].
Defined.

(** C1 fails as stated: with [9] accumulated and [+] pending, no digit
    typed, the [*] button followed at once by the [-] button turns the
    accumulator from 9 into 0. *)
Lemma operator_override_counterexample :
  let s := after ["9"; "+"]%string in
  let s1 := fst (Calculator_HandleButton atof_decimal s (key_of "*")) in
  let s2 := fst (Calculator_HandleButton atof_decimal s1 (key_of "-")) in
  cstr (input s) = [] /\ cstr (input s1) = [] /\
  accumulator s = nine /\ accumulator s1 = nine /\
  accumulator s2 = S754_zero false /\ accumulator s2 <> accumulator s1 /\
  currentOperator s2 = "-"%char.
Proof.
  vm_compute. repeat split; discriminate.
Qed.

(* ================================================================== *)
(** ** Operators passed to [Calculator_ApplyOperation] *)

(** Membership in a list of closed terms. *)
Ltac in_table := vm_compute; repeat (first [left; reflexivity | right]).

(** The operator buttons of the table are labelled [/], [*], [-], [+]. *)
Lemma operator_buttons (W : Z) (b : CalculatorButton) :
  In b (buttons W) -> btn_type b = CALC_BUTTON_OPERATOR ->
  arithmetic_operator (label0 b).
Proof.
  unfold buttons, arithmetic_operator. simpl.
  intros H T.
  repeat (destruct H as [H|H];
          [subst b; simpl in T; try discriminate T; unfold label0; simpl; tauto|]).
  destruct H.
Qed.

(** A call of the engine applies at most one operation, to the pending
    operator, and only when there is an accumulator. *)
Lemma HandleButton_log (atof : list ascii -> double) (s : CalculatorState)
      (b : CalculatorButton) :
  snd (Calculator_HandleButton atof s b) = []
  \/ (snd (Calculator_HandleButton atof s b) = [currentOperator s]
      /\ hasAccumulator s = true
      /\ (currentOperator s = NUL ->
          btn_type b = CALC_BUTTON_OPERATOR /\ first_char (input s) <> NUL)).
Proof.
  unfold Calculator_HandleButton.
  destruct (_ && _); [left; reflexivity|].
  destruct (btn_type b); simpl; try (left; reflexivity).
  - unfold Calculator_HandleOperator.
    destruct (hasAccumulator s); simpl; [|left; reflexivity].
    destruct (Ascii.eqb_spec (currentOperator s) NUL) as [E|E]; simpl.
    + destruct (Ascii.eqb_spec (first_char (input s)) NUL) as [F|F]; simpl.
      * left; reflexivity.
      * destruct (Calculator_ApplyOperation _ _ _ _). right. simpl. tauto.
    + destruct (Calculator_ApplyOperation _ _ _ _). right. simpl. tauto.
  - unfold Calculator_HandleEquals.
    destruct (hasAccumulator s); simpl.
    + destruct (Ascii.eqb_spec (currentOperator s) NUL) as [E|E]; simpl.
      * left; reflexivity.
      * destruct (Calculator_ApplyOperation _ _ _ _). right. simpl. tauto.
    + destruct (negb _); left; reflexivity.
Qed.

(** The pending operator after a call of the engine. *)
Lemma HandleButton_pending (atof : list ascii -> double) (s : CalculatorState)
      (b : CalculatorButton) :
  let s' := fst (Calculator_HandleButton atof s b) in
  (currentOperator s' = currentOperator s /\ hasAccumulator s' = hasAccumulator s)
  \/ (btn_type b = CALC_BUTTON_OPERATOR /\ currentOperator s' = label0 b)
  \/ (btn_type b = CALC_BUTTON_CLEAR /\ currentOperator s' = NUL /\ hasAccumulator s' = false)
  \/ (btn_type b = CALC_BUTTON_EQUALS /\ currentOperator s' = NUL).
Proof.
  unfold Calculator_HandleButton.
  destruct (_ && _); [left; split; reflexivity|].
  destruct (btn_type b) eqn:T; simpl.
  - left. unfold Calculator_AppendInput.
    destruct (_ <=? _)%nat; [split; reflexivity|].
    destruct (_ && _); split; reflexivity.
  - right; left. split; [reflexivity | apply after_HandleOperator].
  - right; right; left. repeat split.
  - unfold Calculator_HandleEquals.
    destruct (_ && _); [right; right; right; split; reflexivity|].
    destruct (_ && _); [|left; split; reflexivity].
    destruct (Calculator_ApplyOperation _ _ _ _). right; right; right. split; reflexivity.
Qed.

Lemma press_all_operators (atof : list ascii -> double) (W : Z)
      (bs : list CalculatorButton) :
  Forall (fun b => In b (buttons W)) bs ->
  forall s,
    (currentOperator s = NUL \/ arithmetic_operator (currentOperator s)) ->
    Forall (fun op => op = NUL \/ arithmetic_operator op) (snd (press_all atof bs s)).
Proof.
  induction 1 as [|b rest Hb Hrest IH]; intros s Inv; simpl; [constructor|].
  pose proof (HandleButton_log atof s b) as L.
  pose proof (HandleButton_pending atof s b) as P.
  destruct (Calculator_HandleButton atof s b) as [s1 l1]; simpl in L, P.
  assert (Inv1 : currentOperator s1 = NUL \/ arithmetic_operator (currentOperator s1)).
  { destruct P as [[P _]|[[T P]|[[_ [P _]]|[_ P]]]]; rewrite P; auto.
    right. apply (operator_buttons W); assumption. }
  specialize (IH s1 Inv1).
  destruct (press_all atof rest s1) as [s2 l2]; simpl in IH |- *.
  apply Forall_app. split; [|exact IH].
  destruct L as [L|[L _]]; rewrite L; [apply Forall_nil|].
  apply Forall_cons; [exact Inv | apply Forall_nil].
Qed.

Lemma press_all_operators_without_equals (atof : list ascii -> double) (W : Z)
      (bs : list CalculatorButton) :
  Forall (fun b => In b (buttons W)) bs ->
  Forall (fun b => btn_type b <> CALC_BUTTON_EQUALS) bs ->
  forall s,
    (hasAccumulator s = true -> arithmetic_operator (currentOperator s)) ->
    Forall arithmetic_operator (snd (press_all atof bs s)).
Proof.
  induction 1 as [|b rest Hb Hrest IH]; intros Hne s Inv; simpl; [constructor|].
  inversion Hne as [|b' rest' Nb Nrest]; subst.
  pose proof (HandleButton_log atof s b) as L.
  pose proof (HandleButton_pending atof s b) as P.
  destruct (Calculator_HandleButton atof s b) as [s1 l1]; simpl in L, P.
  assert (Inv1 : hasAccumulator s1 = true -> arithmetic_operator (currentOperator s1)).
  { destruct P as [[P A]|[[T P]|[[_ [P A]]|[T _]]]].
    - rewrite P, A. exact Inv.
    - rewrite P. intros _. apply (operator_buttons W); assumption.
    - rewrite A. discriminate.
    - contradiction. }
  specialize (IH Nrest s1 Inv1).
  destruct (press_all atof rest s1) as [s2 l2]; simpl in IH |- *.
  apply Forall_app. split; [|exact IH].
  destruct L as [L|[L [A _]]]; rewrite L; [apply Forall_nil|].
  apply Forall_cons; [exact (Inv A) | apply Forall_nil].
Qed.

(** C2 (as the code has it).  After the reset [main] starts with, whatever
    buttons of the table are handled, [Calculator_ApplyOperation] is only
    called with [+], [-], [*], [/] or with the character 0 that stands for
    no pending operator.  The character 0, which takes the default branch,
    is passed only when an operator button is handled with an accumulator,
    no pending operator and a non-empty buffer; it cannot happen as long
    as the equals button is not among the buttons handled. *)
Theorem apply_is_called_with_an_operator_or_none
        (atof : list ascii -> double) (W : Z) (bs : list CalculatorButton) :
  Forall (fun b => In b (buttons W)) bs ->
  let log := snd (press_all atof bs (Calculator_Reset uninitialised)) in
  Forall (fun op => op = NUL \/ arithmetic_operator op) log /\
  (Forall (fun b => btn_type b <> CALC_BUTTON_EQUALS) bs -> Forall arithmetic_operator log) /\
  (forall s b, In NUL (snd (Calculator_HandleButton atof s b)) ->
               btn_type b = CALC_BUTTON_OPERATOR /\ hasAccumulator s = true /\
               currentOperator s = NUL /\ first_char (input s) <> NUL).
Proof.
  intros Hb log. split; [|split].
  - apply (press_all_operators atof W bs Hb). left; reflexivity.
  - intros Hne. apply (press_all_operators_without_equals atof W bs Hb Hne).
    discriminate.
  - intros s b H.
    destruct (HandleButton_log atof s b) as [L|[L [A N]]]; rewrite L in H; [destruct H|].
    destruct H as [H|[]]. specialize (N H). tauto.
Qed.

Lemma apply_is_called_witness :
  Forall (fun op => op = NUL \/ arithmetic_operator op)
         (snd (press_all atof_decimal (keys ["7"; "="; "3"; "+"; "2"; "*"; "="]%string)
                         (Calculator_Reset uninitialised))).
Proof.
  refine (proj1 (apply_is_called_with_an_operator_or_none atof_decimal panel_width
                   (keys ["7"; "="; "3"; "+"; "2"; "*"; "="]%string) _)).
  repeat (apply Forall_cons; [in_table|]). apply Forall_nil.
Defined.

(** C2 fails as stated: the keys [7 = 3 +] make [Calculator_HandleOperator]
    call [Calculator_ApplyOperation(7, 3, 0, ...)], which takes the default
    branch and returns 3. *)
Lemma default_branch_counterexample :
  Forall (fun b => In b (buttons panel_width)) (keys ["7"; "="; "3"; "+"]%string) /\
  snd (press_all atof_decimal (keys ["7"; "="; "3"; "+"]%string)
                 (Calculator_Reset uninitialised)) = [NUL] /\
  ~ arithmetic_operator NUL /\
  accumulator (after ["7"; "="; "3"]%string) = atof_decimal ["7"%char] /\
  accumulator (after ["7"; "="; "3"; "+"]%string) = three.
Proof.
  split; [repeat (apply Forall_cons; [in_table|]); apply Forall_nil|].
  split; [reflexivity|].
  split; [|split; reflexivity].
  intros [H|[H|[H|[H|[]]]]]; discriminate.
Qed.

(* ================================================================== *)
(** ** The hit test *)

Lemma uint16_small (z : Z) : 0 <= z < 65536 -> uint16 z = z.
Proof. intros H. unfold uint16. apply Z.mod_small. exact H. Qed.

Lemma BUTTON_WIDTH_range (W : Z) :
  24 <= W <= 65535 -> 0 <= BUTTON_WIDTH W <= 16377.
Proof.
  intros H. unfold BUTTON_WIDTH, BUTTON_START_X, BUTTON_SPACING, BUTTON_COLUMNS.
  rewrite Z.quot_div_nonneg by lia. split.
  - apply Z.div_pos; lia.
  - apply Z.lt_succ_r. apply Z.div_lt_upper_bound; lia.
Qed.

Lemma contains_spec (b : CalculatorButton) (x y : Z) :
  contains b x y = true <->
  (btn_x b <= x <= btn_x b + btn_w b) /\ (btn_y b <= y <= btn_y b + btn_h b).
Proof.
  unfold contains. rewrite !andb_true_iff, !Z.leb_le. tauto.
Qed.

(** One turn of the [for] loop on a point known to lie in [hit]: the
    button either is [hit], or lies apart from it. *)
Ltac hit_test_step hit :=
  match goal with
  | |- context [contains ?b ?x ?y] =>
      let E := fresh "E" in
      destruct (contains b x y) eqn:E;
      [ first [ reflexivity
              | exfalso; apply contains_spec in E;
                cbn [btn_x btn_y btn_w btn_h] in E; lia ]
      | try discriminate hit ]
  end.

(** The rectangles of the table lie apart from each other, so a point
    inside the rectangle of button [i] is found as button [i]. *)
Lemma FindButton_inside (W i x y : Z) :
  24 <= W <= 65535 -> 0 <= i < 17 ->
  contains (button_at W i) x y = true -> Calculator_FindButton W x y = i.
Proof.
  intros HW Hi H. pose proof (BUTTON_WIDTH_range W HW) as Hbw.
  unfold Calculator_FindButton, button_at, buttons, key, column_x, row_y in *.
  unfold BUTTON_START_X, BUTTON_START_Y, DISPLAY_HEIGHT, BUTTON_HEIGHT, BUTTON_SPACING in *.
  revert Hbw H. generalize (BUTTON_WIDTH W). intros bw Hbw.
  rewrite !uint16_small by lia. intros H.
  assert (C : i = 0 \/ i = 1 \/ i = 2 \/ i = 3 \/ i = 4 \/ i = 5 \/ i = 6 \/ i = 7 \/ i = 8
              \/ i = 9 \/ i = 10 \/ i = 11 \/ i = 12 \/ i = 13 \/ i = 14 \/ i = 15 \/ i = 16)
    by lia.
  cbn [find_from].
  decompose [or] C; subst i;
    cbv [Z.to_nat Pos.to_nat Pos.iter_op Nat.add nth] in H;
    pose proof (proj1 (contains_spec _ _ _) H) as G;
    cbn [btn_x btn_y btn_w btn_h] in G;
    repeat hit_test_step H.
Qed.

Lemma inside_found (W i : Z) (t : TouchData) :
  24 <= W <= 65535 -> 0 <= i < 17 -> inside W i t ->
  td_pressed t = true /\ Calculator_FindButton W (td_x t) (td_y t) = i.
Proof.
  intros HW Hi [P C]. split; [exact P | apply FindButton_inside; assumption].
Qed.

(* ================================================================== *)
(** ** The control loop *)

Lemma activations_app (tr1 tr2 : list Event) :
  activations (tr1 ++ tr2) = activations tr1 ++ activations tr2.
Proof.
  induction tr1 as [|e r IH]; simpl; [reflexivity|].
  destruct e; simpl; rewrite IH; reflexivity.
Qed.

Section Loop.

Variable atof : list ascii -> double.
Variable W : Z.

(** The redraw touches neither the engine nor the held button. *)
Lemma render_gate_keeps (m : MainState) :
  state (render_gate m) = state m /\
  lastButton (render_gate m) = lastButton m /\
  activations (trace (render_gate m)) = activations (trace m).
Proof.
  unfold render_gate. destruct (_ || _); simpl; [|tauto].
  rewrite activations_app. simpl. rewrite app_nil_r. tauto.
Qed.

(** Finger down on the held button, or where there is no button. *)
Lemma dispatch_no_activation (t : TouchData) (m : MainState) :
  td_pressed t = true ->
  Calculator_FindButton W (td_x t) (td_y t) = lastButton m
  \/ Calculator_FindButton W (td_x t) (td_y t) < 0 ->
  dispatch atof W t m = set_touchStatus (mkTouch (td_x t) (td_y t) true) m.
Proof.
  intros P H. unfold dispatch. rewrite P. simpl.
  destruct H as [H|H].
  - rewrite H, Z.eqb_refl, andb_false_r. reflexivity.
  - destruct (Z.leb_spec 0 (Calculator_FindButton W (td_x t) (td_y t)));
      [lia | reflexivity].
Qed.

(** Finger down on a button other than the held one. *)
Lemma dispatch_activation (t : TouchData) (m : MainState) :
  td_pressed t = true ->
  let pressed := Calculator_FindButton W (td_x t) (td_y t) in
  0 <= pressed -> pressed <> lastButton m ->
  dispatch atof W t m
  = mkMain (fst (Calculator_HandleButton atof (state m) (button_at W pressed)))
           pressed (mkTouch (td_x t) (td_y t) true) (lastRenderedStatus m) true
           ((trace m ++ [HandleButton_call pressed]) ++ [DrawButton_call pressed true]).
Proof.
  intros P pressed H0 H1. unfold dispatch. rewrite P. fold pressed. simpl.
  destruct (Z.leb_spec 0 pressed); [|lia].
  destruct (Z.eqb_spec pressed (lastButton m)); [contradiction|]. reflexivity.
Qed.

Lemma loop_body_no_activation (t : TouchData) (m : MainState) :
  td_pressed t = true ->
  Calculator_FindButton W (td_x t) (td_y t) = lastButton m
  \/ Calculator_FindButton W (td_x t) (td_y t) < 0 ->
  let m' := loop_body atof W t m in
  state m' = state m /\ lastButton m' = lastButton m /\
  activations (trace m') = activations (trace m).
Proof.
  intros P H. unfold loop_body.
  destruct (render_gate_keeps (dispatch atof W t m)) as [Hs [Hl Ha]].
  rewrite Hs, Hl, Ha, (dispatch_no_activation t m P H). simpl. tauto.
Qed.

Lemma loop_body_activation (t : TouchData) (m : MainState) :
  td_pressed t = true ->
  let pressed := Calculator_FindButton W (td_x t) (td_y t) in
  0 <= pressed -> pressed <> lastButton m ->
  let m' := loop_body atof W t m in
  state m' = fst (Calculator_HandleButton atof (state m) (button_at W pressed)) /\
  lastButton m' = pressed /\
  activations (trace m') = activations (trace m) ++ [pressed].
Proof.
  intros P pressed H0 H1. unfold loop_body.
  destruct (render_gate_keeps (dispatch atof W t m)) as [Hs [Hl Ha]].
  rewrite Hs, Hl, Ha, (dispatch_activation t m P H0 H1). simpl.
  rewrite !activations_app. simpl. rewrite app_nil_r. tauto.
Qed.

(** While the finger stays down on the held button or off every button,
    the engine is not called. *)
Lemma run_no_activation (i : Z) (ts : list TouchData) :
  Forall (fun t => td_pressed t = true /\
                   (Calculator_FindButton W (td_x t) (td_y t) = i
                    \/ Calculator_FindButton W (td_x t) (td_y t) < 0)) ts ->
  forall m, lastButton m = i ->
    let m' := run atof W ts m in
    state m' = state m /\ lastButton m' = i /\
    activations (trace m') = activations (trace m).
Proof.
  induction 1 as [|t rest [P H] _ IH]; intros m L; simpl; [tauto|].
  rewrite <- L in H.
  destruct (loop_body_no_activation t m P H) as [Hs [Hl Ha]].
  destruct (IH (loop_body atof W t m)) as [Hs' [Hl' Ha']]; [congruence|].
  unfold run in *. rewrite Hs', Hl', Ha'. tauto.
Qed.

Hypothesis W_range : 24 <= W <= 65535.

Lemma inside_no_activation (i : Z) (ts : list TouchData) :
  0 <= i < 17 -> Forall (inside W i) ts ->
  Forall (fun t => td_pressed t = true /\
                   (Calculator_FindButton W (td_x t) (td_y t) = i
                    \/ Calculator_FindButton W (td_x t) (td_y t) < 0)) ts.
Proof.
  intros Hi H. eapply Forall_impl; [|exact H].
  intros t Ht. destruct (inside_found W i t W_range Hi Ht). tauto.
Qed.

(** The first iteration of a press on button [i] from the idle state. *)
Lemma first_touch_activates (i : Z) (t : TouchData) (m : MainState) :
  0 <= i < 17 -> lastButton m = -1 -> inside W i t ->
  let m' := loop_body atof W t m in
  state m' = fst (Calculator_HandleButton atof (state m) (button_at W i)) /\
  lastButton m' = i /\
  activations (trace m') = activations (trace m) ++ [i].
Proof.
  intros Hi L Ht. destruct (inside_found W i t W_range Hi Ht) as [P F].
  pose proof (loop_body_activation t m P) as A. simpl in A. rewrite F in A.
  apply A; lia.
Qed.

End Loop.

(** C3.  Start with no button held and keep the finger down inside the
    rectangle of button [i] for one or more iterations of the loop: over
    the whole run [Calculator_HandleButton] is called once, on button [i],
    however many iterations there are.  The engine state is the one that
    call returns, and button [i] is the held button at the end. *)
Theorem continuous_press_activates_once
        (atof : list ascii -> double) (W i : Z) (t : TouchData) (ts : list TouchData)
        (m : MainState) :
  24 <= W <= 65535 -> 0 <= i < 17 ->
  lastButton m = -1 ->
  Forall (inside W i) (t :: ts) ->
  let m' := run atof W (t :: ts) m in
  activations (trace m') = activations (trace m) ++ [i] /\
  state m' = fst (Calculator_HandleButton atof (state m) (button_at W i)) /\
  lastButton m' = i.
Proof.
  intros HW Hi L H. inversion H as [|t' ts' Ht Hts]; subst.
  destruct (first_touch_activates atof W HW i t m Hi L Ht) as [Hs [Hl Ha]].
  destruct (run_no_activation atof W i ts (inside_no_activation W HW i ts Hi Hts)
              (loop_body atof W t m) Hl) as [Hs' [Hl' Ha']].
  simpl. unfold run in *. rewrite Hs', Hl', Ha', Hs, Ha. tauto.
Qed.

Lemma continuous_press_witness :
  activations (trace (run atof_decimal panel_width
                          [touch_at 10 100; touch_at 11 101; touch_at 60 145]
                          (main_init panel_width)))
  = activations (trace (main_init panel_width)) ++ [0].
Proof.
  refine (proj1 (continuous_press_activates_once atof_decimal panel_width 0
                   (touch_at 10 100) [touch_at 11 101; touch_at 60 145]
                   (main_init panel_width) _ _ _ _)).
  - unfold panel_width; lia.
  - lia.
  - reflexivity.
  - repeat (apply Forall_cons; [split; reflexivity|]). apply Forall_nil.
Defined.

(** C10.  An iteration with the finger down where the hit test finds no
    button leaves the held button as it is and does not call the engine.
    So a press that starts on button [i] from the idle state, moves off
    every button and comes back onto button [i] calls the engine once, on
    button [i], over the whole press. *)
Theorem press_off_the_buttons_keeps_held_button
        (atof : list ascii -> double) (W : Z) (m : MainState) :
  (forall t, outside W t ->
     let m' := loop_body atof W t m in
     lastButton m' = lastButton m /\ state m' = state m /\
     activations (trace m') = activations (trace m)) /\
  (forall i t ts gap back,
     24 <= W <= 65535 -> 0 <= i < 17 ->
     lastButton m = -1 ->
     Forall (inside W i) (t :: ts) -> Forall (outside W) gap -> Forall (inside W i) back ->
     let m' := run atof W ((t :: ts) ++ gap ++ back) m in
     activations (trace m') = activations (trace m) ++ [i] /\
     state m' = fst (Calculator_HandleButton atof (state m) (button_at W i)) /\
     lastButton m' = i).
Proof.
  split.
  - intros t [P F].
    destruct (loop_body_no_activation atof W t m P) as [Hs [Hl Ha]]; [right; lia | cbv zeta; tauto].
  - intros i t ts gap back HW Hi L H Hgap Hback.
    inversion H as [|t' ts' Ht Hts]; subst.
    destruct (first_touch_activates atof W HW i t m Hi L Ht) as [Hs [Hl Ha]].
    assert (R : Forall (fun t => td_pressed t = true /\
                                 (Calculator_FindButton W (td_x t) (td_y t) = i
                                  \/ Calculator_FindButton W (td_x t) (td_y t) < 0))
                       (ts ++ gap ++ back)).
    { apply Forall_app. split; [apply inside_no_activation; assumption|].
      apply Forall_app. split; [|apply inside_no_activation; assumption].
      eapply Forall_impl; [|exact Hgap]. intros u [P F]. split; [exact P | right; lia]. }
    destruct (run_no_activation atof W i _ R (loop_body atof W t m) Hl) as [Hs' [Hl' Ha']].
    simpl. unfold run in *. rewrite Hs', Hl', Ha', Hs, Ha. tauto.
Qed.

Lemma press_off_the_buttons_witness :
  activations (trace (run atof_decimal panel_width
                          ([touch_at 10 100; touch_at 60 100]
                             ++ [touch_at 62 100; touch_at 30 147; touch_at 0 0]
                             ++ [touch_at 59 144])
                          (main_init panel_width)))
  = activations (trace (main_init panel_width)) ++ [0].
Proof.
  refine (proj1 (proj2 (press_off_the_buttons_keeps_held_button atof_decimal panel_width
                          (main_init panel_width))
                   0 (touch_at 10 100) [touch_at 60 100]
                   [touch_at 62 100; touch_at 30 147; touch_at 0 0]
                   [touch_at 59 144] _ _ _ _ _ _)).
  - unfold panel_width; lia.
  - lia.
  - reflexivity.
  - repeat (apply Forall_cons; [split; reflexivity|]). apply Forall_nil.
  - repeat (apply Forall_cons; [split; reflexivity|]). apply Forall_nil.
  - repeat (apply Forall_cons; [split; reflexivity|]). apply Forall_nil.
Defined.

(** What [dispatch] can do: activate a button, which sets the dirty flag,
    or leave engine and flag alone, with the held button kept or dropped. *)
Lemma dispatch_cases (atof : list ascii -> double) (W : Z) (t : TouchData) (m : MainState) :
  let m' := dispatch atof W t m in
  (td_pressed t = true /\ stateDirty m' = true /\
   activations (trace m') = activations (trace m) ++ [lastButton m'])
  \/ (state m' = state m /\ stateDirty m' = stateDirty m /\
      activations (trace m') = activations (trace m) /\
      (lastButton m' = lastButton m \/ lastButton m' = -1)).
Proof.
  unfold dispatch. destruct (td_pressed t); simpl.
  - destruct (_ && _); simpl.
    + left. rewrite !activations_app. simpl. rewrite app_nil_r. tauto.
    + right. tauto.
  - destruct (0 <=? lastButton m); simpl.
    + right. rewrite activations_app. simpl. rewrite app_nil_r. tauto.
    + right. tauto.
Qed.

(** Finger up. *)
Lemma dispatch_released (atof : list ascii -> double) (W : Z) (t : TouchData)
      (m : MainState) :
  td_pressed t = false ->
  dispatch atof W t m
  = if 0 <=? lastButton m then
      mkMain (state m) (-1) (mkTouch 0 0 false) (lastRenderedStatus m) (stateDirty m)
             (trace m ++ [DrawButton_call (lastButton m) false])
    else set_touchStatus (mkTouch 0 0 false) m.
Proof. intros P. unfold dispatch. rewrite P. reflexivity. Qed.

(** A button is held at the end of [dispatch] only with the finger down. *)
Lemma dispatch_held_pressed (atof : list ascii -> double) (W : Z) (t : TouchData)
      (m : MainState) :
  0 <= lastButton (dispatch atof W t m) ->
  touch_pressed (touchStatus (dispatch atof W t m)) = true.
Proof.
  unfold dispatch. destruct (td_pressed t); simpl.
  - destruct (_ && _); reflexivity.
  - destruct (Z.leb_spec 0 (lastButton m)) as [L|L]; simpl; intros H; lia.
Qed.

(** At the end of an iteration that leaves a button held, the status
    last rendered has the finger down and the dirty flag is clear. *)
Lemma loop_body_held_rendered (atof : list ascii -> double) (W : Z) (t : TouchData)
      (m : MainState) :
  0 <= lastButton (loop_body atof W t m) ->
  touch_pressed (lastRenderedStatus (loop_body atof W t m)) = true /\
  stateDirty (loop_body atof W t m) = false.
Proof.
  unfold loop_body. intros H.
  destruct (render_gate_keeps (dispatch atof W t m)) as [_ [Hl _]]. rewrite Hl in H.
  pose proof (dispatch_held_pressed atof W t m H) as P.
  unfold render_gate.
  destruct (stateDirty (dispatch atof W t m)) eqn:D; simpl; [split; [exact P | reflexivity]|].
  destruct (Bool.eqb _ _) eqn:B; simpl; [|split; [exact P | reflexivity]].
  apply eqb_prop in B.
  destruct (_ || _); simpl; split; congruence.
Qed.

(** The same in every state the loop reaches from the start of [main]. *)
Lemma run_held_rendered (atof : list ascii -> double) (W : Z) (ts : list TouchData) :
  forall m,
    (0 <= lastButton m ->
     touch_pressed (lastRenderedStatus m) = true /\ stateDirty m = false) ->
    0 <= lastButton (run atof W ts m) ->
    touch_pressed (lastRenderedStatus (run atof W ts m)) = true /\
    stateDirty (run atof W ts m) = false.
Proof.
  induction ts as [|t ts IH]; intros m Hm; [exact Hm|].
  apply (IH (loop_body atof W t m)). apply loop_body_held_rendered.
Qed.

(** C9 (as the code has it).  In an iteration of the loop the dirty flag
    is set whenever the engine is called, hence whenever the engine state
    changes, and whenever a button becomes the held button.  With the
    finger up the flag keeps the value it had, also when a held button is
    released: the button is redrawn at once, and the display is redrawn in
    the same iteration when the last rendered status had the finger down.
    In every state the loop reaches from the start of [main] with a button
    held, that status does have the finger down and the flag is clear: on
    the iteration that releases the button the flag is still clear after
    the dispatch, and the iteration draws the button unpressed and then the
    display. *)
Theorem dirty_flag_is_set_on_activation
        (atof : list ascii -> double) (W : Z) (t : TouchData) (m : MainState) :
  let m' := dispatch atof W t m in
  (activations (trace m') <> activations (trace m) -> stateDirty m' = true) /\
  (state m' <> state m -> stateDirty m' = true) /\
  (0 <= lastButton m' -> lastButton m' <> lastButton m -> stateDirty m' = true) /\
  (td_pressed t = false ->
   stateDirty m' = stateDirty m /\ state m' = state m /\
   (0 <= lastButton m ->
    lastButton m' = -1 /\ trace m' = trace m ++ [DrawButton_call (lastButton m) false]) /\
   (touch_pressed (lastRenderedStatus m) = true ->
    trace (loop_body atof W t m) = trace m' ++ [DrawDisplay_call (state m') (mkTouch 0 0 false)])) /\
  (forall ts,
     m = run atof W ts (main_init W) ->
     td_pressed t = false -> 0 <= lastButton m ->
     stateDirty m' = false /\
     touch_pressed (lastRenderedStatus m) = true /\
     touchStatus m' <> lastRenderedStatus m' /\
     trace (loop_body atof W t m)
     = trace m ++ [DrawButton_call (lastButton m) false;
                   DrawDisplay_call (state m) (mkTouch 0 0 false)]).
Proof.
  intros m'. pose proof (dispatch_cases atof W t m) as C. fold m' in C. simpl in C.
  assert (D : td_pressed t = false ->
              stateDirty m' = stateDirty m /\ state m' = state m /\
              (0 <= lastButton m ->
               lastButton m' = -1 /\
               trace m' = trace m ++ [DrawButton_call (lastButton m) false]) /\
              (touch_pressed (lastRenderedStatus m) = true ->
               trace (loop_body atof W t m)
               = trace m' ++ [DrawDisplay_call (state m') (mkTouch 0 0 false)])).
  { intros P. subst m'. unfold loop_body, render_gate.
    rewrite (dispatch_released atof W t m P).
    destruct (Z.leb_spec 0 (lastButton m)) as [L|L]; simpl.
    + split; [reflexivity|]. split; [reflexivity|]. split; [tauto|].
      intros R. rewrite R. rewrite orb_true_r. reflexivity.
    + split; [reflexivity|]. split; [reflexivity|]. split; [lia|].
      intros R. rewrite R. rewrite orb_true_r. reflexivity. }
  split; [|split; [|split; [|split]]].
  - intros H. destruct C as [C|C]; [tauto|]. destruct C as [_ [_ [A _]]]. contradiction.
  - intros H. destruct C as [C|C]; [tauto|]. destruct C as [S _]. contradiction.
  - intros H0 H1. destruct C as [C|C]; [tauto|].
    destruct C as [_ [_ [_ [L|L]]]]; [contradiction | lia].
  - exact D.
  - intros ts Hm P L.
    assert (R : touch_pressed (lastRenderedStatus m) = true /\ stateDirty m = false).
    { rewrite Hm in L |- *. apply run_held_rendered; [|exact L].
      simpl. intros H. lia. }
    destruct R as [R Dm]. destruct (D P) as [Hd [Hs [Hb Hr]]].
    destruct (Hb L) as [_ Ht].
    split; [congruence|]. split; [exact R|]. split.
    + subst m'. rewrite (dispatch_released atof W t m P).
      destruct (Z.leb_spec 0 (lastButton m)) as [L'|L']; [|lia]. simpl.
      intros E. rewrite <- E in R. discriminate R.
    + rewrite (Hr R), Ht, Hs, <- app_assoc. reflexivity.
Qed.

Lemma dirty_flag_witness :
  stateDirty (dispatch atof_decimal panel_width (touch_at 70 100)
                       (run atof_decimal panel_width [touch_at 10 100] (main_init panel_width)))
  = true /\
  trace (loop_body atof_decimal panel_width no_touch
                   (run atof_decimal panel_width [touch_at 10 100] (main_init panel_width)))
  = trace (run atof_decimal panel_width [touch_at 10 100] (main_init panel_width))
      ++ [DrawButton_call 0 false;
          DrawDisplay_call (after ["7"]%string) (mkTouch 0 0 false)].
Proof.
  split.
  - refine (proj1 (proj2 (proj2 (dirty_flag_is_set_on_activation atof_decimal panel_width
                                   (touch_at 70 100)
                                   (run atof_decimal panel_width [touch_at 10 100]
                                        (main_init panel_width))))) _ _).
    + vm_compute. discriminate.
    + vm_compute. discriminate.
  - refine (proj2 (proj2 (proj2
              (proj2 (proj2 (proj2 (proj2
                 (dirty_flag_is_set_on_activation atof_decimal panel_width no_touch
                    (run atof_decimal panel_width [touch_at 10 100] (main_init panel_width))))))
                 [touch_at 10 100] _ _ _)))).
    + reflexivity.
    + reflexivity.
    + vm_compute. discriminate.
Defined.

(** C9 fails as stated: hold button 0 (the key [7]) for one iteration,
    after which the dirty flag is clear, then lift the finger; the held
    button is released and the dirty flag is still clear when the loop
    comes to the redraw test. *)
Lemma release_counterexample :
  let held := run atof_decimal panel_width [touch_at 10 100] (main_init panel_width) in
  let released := dispatch atof_decimal panel_width no_touch held in
  lastButton held = 0 /\ stateDirty held = false /\
  lastButton released = -1 /\ stateDirty released = false.
Proof.
  vm_compute. tauto.
Qed.


(* ================================================================== *)
(** ** The scenarios of the specification, run on the model *)

Example scenario_seven_plus_three :
  after ["7"; "+"; "3"; "="]%string = mkState ten NUL true false zeroed_input.
Proof. reflexivity. Qed.

Example scenario_five_by_zero :
  error (after ["5"; "/"; "0"; "="]%string) = true /\
  after ["5"; "/"; "0"; "="; "2"]%string = after ["5"; "/"; "0"; "="]%string.
Proof. split; reflexivity. Qed.

Example scenario_plus_then_minus :
  accumulator (after ["9"; "+"; "-"; "4"; "="]%string) = five.
Proof. reflexivity. Qed.

Example scenario_drag_from_seven_to_eight :
  activations (trace (run atof_decimal panel_width
                          [touch_at 10 100; touch_at 40 100; touch_at 70 100; touch_at 90 100]
                          (main_init panel_width)))
  = [0; 1].
Proof. reflexivity. Qed.

Example scenario_second_point_and_capacity :
  cstr (input (after ["1"; "."; "5"; "."; "2"]%string)) = ["1"; "."; "5"; "2"]%char /\
  List.length (cstr (input (after (repeat "8"%string 20)))) = 16%nat.
Proof. split; reflexivity. Qed.

(* ================================================================== *)
(** * Further properties of the engine *)

(** ** Typing an operand *)

Lemma has_point_In (t : list ascii) : has_point t = true <-> In "."%char t.
Proof.
  unfold has_point. rewrite existsb_exists. split.
  - intros [c [I E]]. apply Ascii.eqb_eq in E. subst c. exact I.
  - intros I. exists "."%char. split; [exact I | reflexivity].
Qed.

Lemma has_point_snoc (t : list ascii) (c : ascii) :
  has_point (t ++ [c]) = has_point t || Ascii.eqb "." c.
Proof. unfold has_point. rewrite existsb_app. simpl. rewrite orb_false_r. reflexivity. Qed.

Lemma firstn_full (t r : list ascii) :
  List.length t = 16%nat -> firstn 16 (t ++ r) = t.
Proof.
  intros L. rewrite firstn_app, L, Nat.sub_diag, firstn_O, app_nil_r.
  rewrite <- L. apply firstn_all.
Qed.

Lemma AppendInput_terminated (s : CalculatorState) (c : ascii) :
  terminated INPUT_BUFFER_SIZE (input s) ->
  terminated INPUT_BUFFER_SIZE (input (Calculator_AppendInput s c)).
Proof.
  intros Ht. destruct (reject_dec s c) as [R|R].
  - rewrite (AppendInput_rejected s c Ht R). exact Ht.
  - rewrite (AppendInput_accepted s c Ht R). simpl.
    assert (Hlen : (strlen (input s) + 1 < List.length (input s))%nat).
    { destruct Ht as [Hl Hs]. rewrite strlen_cstr in *. unfold INPUT_BUFFER_SIZE in *. lia. }
    destruct Ht as [Hl Hs]. split; [unfold written; rewrite !store_length; exact Hl|].
    rewrite strlen_cstr. destruct (Ascii.eqb_spec c NUL) as [E|E].
    + subst c. rewrite cstr_written_NUL, <- strlen_cstr. exact Hs.
    + rewrite (cstr_written _ _ Hlen E), length_app, <- strlen_cstr. simpl. lia.
Qed.

(** The text after one character. *)
Lemma AppendInput_text (s : CalculatorState) (c : ascii) :
  terminated INPUT_BUFFER_SIZE (input s) -> c <> NUL ->
  let t := cstr (input s) in
  cstr (input (Calculator_AppendInput s c))
  = if (List.length t =? 16)%nat || (Ascii.eqb "." c && has_point t) then t else t ++ [c].
Proof.
  intros Ht Hc t.
  destruct (Nat.eqb_spec (List.length t) 16) as [L|L]; cbn [orb andb].
  { rewrite AppendInput_rejected; [reflexivity | exact Ht | left; exact L]. }
  destruct (Ascii.eqb_spec "." c) as [P|P]; cbn [orb andb].
  - destruct (has_point t) eqn:H.
    + rewrite AppendInput_rejected; [reflexivity | exact Ht|].
      right. split; [congruence | apply has_point_In; exact H].
    + rewrite AppendInput_accepted; [|exact Ht|].
      * simpl. apply cstr_written; [|exact Hc].
        destruct Ht as [Hl Hs]. rewrite strlen_cstr in *. unfold INPUT_BUFFER_SIZE in *.
        fold t in Hs |- *. lia.
      * intros [A|[_ A]]; [exact (L A)|]. apply has_point_In in A. fold t in A. congruence.
  - rewrite AppendInput_accepted; [|exact Ht|].
    + simpl. apply cstr_written; [|exact Hc].
      destruct Ht as [Hl Hs]. rewrite strlen_cstr in *. unfold INPUT_BUFFER_SIZE in *.
      fold t in Hs |- *. lia.
    + intros [A|[A _]]; [exact (L A) | congruence].
Qed.

(** [Calculator_AppendInput] writes to the input buffer only. *)
Lemma AppendInput_fields (s : CalculatorState) (c : ascii) :
  Calculator_AppendInput s c = set_input (input (Calculator_AppendInput s c)) s.
Proof.
  unfold Calculator_AppendInput.
  destruct (_ <=? _)%nat; [destruct s; reflexivity|].
  destruct (_ && _); [destruct s; reflexivity | reflexivity].
Qed.

Lemma typed_chars (ds : list ascii) :
  forall s, terminated INPUT_BUFFER_SIZE (input s) -> ~ In NUL ds ->
    let s' := fold_left Calculator_AppendInput ds s in
    let t := cstr (input s) in
    terminated INPUT_BUFFER_SIZE (input s') /\
    cstr (input s') = firstn 16 (t ++ one_point (has_point t) ds) /\
    s' = set_input (input s') s.
Proof.
  induction ds as [|c ds IH]; intros s Ht Hn; cbn [fold_left one_point].
  - split; [exact Ht|]. split; [|destruct s; reflexivity].
    rewrite app_nil_r. symmetry. apply firstn_all2.
    destruct Ht as [Hl Hs]. rewrite strlen_cstr in Hs. unfold INPUT_BUFFER_SIZE in Hs. lia.
  - assert (Hc : c <> NUL) by (intros E; apply Hn; left; congruence).
    assert (Hn' : ~ In NUL ds) by (intros I; apply Hn; right; exact I).
    pose proof (AppendInput_terminated s c Ht) as Ht1.
    pose proof (AppendInput_text s c Ht Hc) as Hx. cbv zeta in Hx.
    destruct (IH (Calculator_AppendInput s c) Ht1 Hn') as [Ht' [Hx' Hf']].
    split; [exact Ht'|]. split.
    + rewrite Hx', Hx. clear Hx Hx' Hf'.
      destruct (Nat.eqb_spec (List.length (cstr (input s))) 16) as [L|L]; cbn [orb andb one_point].
      { rewrite !firstn_full by exact L. reflexivity. }
      rewrite (Ascii.eqb_sym c ".").
      destruct (Ascii.eqb_spec "." c) as [P|P]; cbn [orb andb one_point].
      * destruct (has_point (cstr (input s))) eqn:H; [rewrite ?H; reflexivity|].
        rewrite has_point_snoc, ?H. subst c. rewrite Ascii.eqb_refl. cbn [orb].
        rewrite <- app_assoc. reflexivity.
      * rewrite has_point_snoc. destruct (Ascii.eqb_spec "." c); [contradiction|].
        rewrite orb_false_r, <- app_assoc. reflexivity.
    + rewrite Hf' at 1. rewrite (AppendInput_fields s c). reflexivity.
Qed.

(** Digit buttons handled without error append their labels. *)
Lemma press_all_digits (atof : list ascii -> double) (bs : list CalculatorButton) :
  forall s, error s = false -> digit_keys bs ->
    press_all atof bs s = (fold_left Calculator_AppendInput (map label0 bs) s, []).
Proof.
  induction bs as [|b bs IH]; intros s E D; simpl; [reflexivity|].
  inversion D as [|b' bs' [T _] D']; subst.
  unfold Calculator_HandleButton at 1. rewrite E, T. simpl.
  rewrite IH; [reflexivity | | exact D'].
  rewrite AppendInput_fields. exact E.
Qed.

Lemma digit_keys_labels (bs : list CalculatorButton) :
  digit_keys bs -> ~ In NUL (map label0 bs).
Proof.
  induction 1 as [|b bs [_ N] _ IH]; simpl; [tauto|].
  intros [H|H]; [exact (N H) | exact (IH H)].
Qed.

Lemma typing_appends_the_labels_aux
      (atof : list ascii -> double) (s : CalculatorState) (bs : list CalculatorButton) :
  error s = false ->
  terminated INPUT_BUFFER_SIZE (input s) ->
  digit_keys bs ->
  cstr (input (fst (press_all atof bs s)))
  = firstn 16 (cstr (input s)
                 ++ one_point (has_point (cstr (input s))) (map label0 bs)) /\
  fst (press_all atof bs s) = set_input (input (fst (press_all atof bs s))) s /\
  snd (press_all atof bs s) = [].
Proof.
  intros E Ht D. rewrite (press_all_digits atof bs s E D). simpl.
  destruct (typed_chars (map label0 bs) s Ht (digit_keys_labels bs D)) as [_ [Hx Hf]].
  split; [exact Hx|]. split; [exact Hf | reflexivity].
Qed.

(** X11.  Digit buttons handled in a state without error change the input
    buffer only, and apply no operation.  The text in the buffer becomes
    the old text followed by the labels, without any decimal point after
    the first of the whole, cut to 16 characters. *)
Theorem typing_appends_the_labels
        (atof : list ascii -> double) (s : CalculatorState) (bs : list CalculatorButton) :
  error s = false ->
  terminated INPUT_BUFFER_SIZE (input s) ->
  digit_keys bs ->
  let s' := fst (press_all atof bs s) in
  let t := cstr (input s) in
  cstr (input s') = firstn 16 (t ++ one_point (has_point t) (map label0 bs)) /\
  s' = set_input (input s') s /\
  snd (press_all atof bs s) = [].
Proof.
  intros E Ht D. rewrite (press_all_digits atof bs s E D). simpl.
  destruct (typed_chars (map label0 bs) s Ht (digit_keys_labels bs D)) as [_ [Hx Hf]].
  split; [exact Hx|]. split; [exact Hf | reflexivity].
Qed.

Lemma typing_witness :
  cstr (input (fst (press_all atof_decimal (keys ["."; "5"; "."; "2"]%string)
                              (after ["1"]%string))))
  = ["1"; "."; "5"; "2"]%char.
Proof.
  refine (proj1 (typing_appends_the_labels atof_decimal (after ["1"]%string)
                   (keys ["."; "5"; "."; "2"]%string) _ _ _)).
  - reflexivity.
  - split; [reflexivity | vm_compute; lia].
  - repeat (apply Forall_cons; [split; [reflexivity | discriminate]|]). apply Forall_nil.
Defined.

(* ================================================================== *)
(** ** Evaluation by keys *)

Lemma first_char_cstr (a : list ascii) :
  Ascii.eqb (first_char a) NUL = (match cstr a with nil => true | cons _ _ => false end).
Proof.
  destruct a as [|c r]; [reflexivity|]. unfold first_char. simpl.
  destruct (Ascii.eqb c NUL); reflexivity.
Qed.

Lemma ParseInput_entered (atof : list ascii -> double) (s : CalculatorState) :
  Calculator_ParseInput atof s = entered atof (cstr (input s)).
Proof.
  unfold Calculator_ParseInput, entered. rewrite first_char_cstr.
  destruct (cstr (input s)); reflexivity.
Qed.

Lemma one_point_id (ds : list ascii) :
  forall seen : bool,
    (count_occ ascii_dec ds "."%char <= (if seen then 0 else 1))%nat ->
               one_point seen ds = ds.
Proof.
  induction ds as [|c ds IH]; intros seen H; [reflexivity|].
  cbn [one_point]. simpl in H.
  destruct (ascii_dec c ".") as [E|E].
  - subst c. rewrite Ascii.eqb_refl. destruct seen; [lia|].
    f_equal. apply IH. simpl. lia.
  - destruct (Ascii.eqb_spec c "."); [contradiction|]. f_equal. apply IH. exact H.
Qed.

Lemma typable_text (ds : list ascii) :
  typable ds -> firstn 16 (one_point false ds) = ds.
Proof.
  intros [_ [L P]]. rewrite one_point_id by exact P. apply firstn_all2. exact L.
Qed.

Lemma press_all_app (atof : list ascii -> double) (bs1 bs2 : list CalculatorButton) :
  forall s,
    press_all atof (bs1 ++ bs2) s
    = (fst (press_all atof bs2 (fst (press_all atof bs1 s))),
       snd (press_all atof bs1 s) ++ snd (press_all atof bs2 (fst (press_all atof bs1 s)))).
Proof.
  induction bs1 as [|b bs1 IH]; intros s; simpl.
  - destruct (press_all atof bs2 s); reflexivity.
  - destruct (Calculator_HandleButton atof s b) as [s1 l1]. rewrite IH.
    destruct (press_all atof bs1 s1) as [s2 l2]. simpl.
    rewrite app_assoc. reflexivity.
Qed.

Lemma press_all_one (atof : list ascii -> double) (b : CalculatorButton) (s : CalculatorState) :
  press_all atof [b] s = Calculator_HandleButton atof s b.
Proof.
  simpl. destruct (Calculator_HandleButton atof s b). rewrite app_nil_r. reflexivity.
Qed.

(** An operand typed on an empty buffer. *)
Lemma type_operand (atof : list ascii -> double) (bs : list CalculatorButton)
      (acc : double) (cur : ascii) (h : bool) :
  digit_keys bs -> typable (map label0 bs) ->
  exists a, press_all atof bs (mkState acc cur h false zeroed_input)
            = (mkState acc cur h false a, [])
            /\ cstr a = map label0 bs.
Proof.
  intros D T.
  pose proof (typing_appends_the_labels_aux atof (mkState acc cur h false zeroed_input) bs
                eq_refl terminated_zeroed_input D) as [Hx [Hf Hl]].
  exists (input (fst (press_all atof bs (mkState acc cur h false zeroed_input)))).
  split.
  - rewrite (surjective_pairing (press_all atof bs _)). rewrite Hl. f_equal. exact Hf.
  - rewrite Hx. simpl. apply typable_text. exact T.
Qed.

(** [Calculator_HandleOperator] in terms of the text of the buffer. *)
Lemma HandleOperator_eq (atof : list ascii -> double) (acc : double) (cur : ascii)
      (h e : bool) (a : list ascii) (op : ascii) :
  let v := entered atof (cstr a) in
  Calculator_HandleOperator atof (mkState acc cur h e a) op
  = if negb h then (mkState v op true e zeroed_input, [])
    else if negb (Ascii.eqb cur NUL) || (match cstr a with nil => false | cons _ _ => true end)
         then let r := Calculator_ApplyOperation acc v cur e in
              (mkState (fst r) op true (snd r) zeroed_input, [cur])
         else (mkState acc op true e zeroed_input, []).
Proof.
  unfold Calculator_HandleOperator. rewrite ParseInput_entered. simpl.
  rewrite first_char_cstr.
  destruct h; simpl; [|reflexivity].
  destruct (Ascii.eqb cur NUL); destruct (cstr a); simpl;
    try destruct (Calculator_ApplyOperation _ _ _ _); reflexivity.
Qed.

(** [Calculator_HandleEquals] in terms of the text of the buffer. *)
Lemma HandleEquals_eq (atof : list ascii -> double) (acc : double) (cur : ascii)
      (h e : bool) (a : list ascii) :
  let v := entered atof (cstr a) in
  Calculator_HandleEquals atof (mkState acc cur h e a)
  = if negb h && (match cstr a with nil => false | cons _ _ => true end)
    then (mkState v NUL true e zeroed_input, [])
    else if h && negb (Ascii.eqb cur NUL)
         then let r := Calculator_ApplyOperation acc v cur e in
              (mkState (fst r) NUL true (snd r) zeroed_input, [cur])
         else (mkState acc cur h e a, []).
Proof.
  unfold Calculator_HandleEquals. rewrite ParseInput_entered. simpl.
  rewrite first_char_cstr.
  destruct h; simpl.
  - destruct (negb (Ascii.eqb cur NUL)); [|reflexivity].
    destruct (Calculator_ApplyOperation _ _ _ _); reflexivity.
  - destruct (cstr a); reflexivity.
Qed.

Lemma arithmetic_operator_not_NUL (op : ascii) :
  arithmetic_operator op -> Ascii.eqb op NUL = false.
Proof.
  intros [H|[H|[H|[H|[]]]]]; subst op; reflexivity.
Qed.

Lemma HandleButton_equals (atof : list ascii -> double) (s : CalculatorState)
      (b : CalculatorButton) :
  error s = false -> btn_type b = CALC_BUTTON_EQUALS ->
  Calculator_HandleButton atof s b = Calculator_HandleEquals atof s.
Proof.
  intros E T. unfold Calculator_HandleButton. rewrite E, T. reflexivity.
Qed.

(** An operand typed on an empty buffer, then one more button. *)
Lemma operand_then (atof : list ascii -> double) (bs : list CalculatorButton)
      (b : CalculatorButton) (acc : double) (cur : ascii) (h : bool) :
  digit_keys bs -> typable (map label0 bs) ->
  exists a, cstr a = map label0 bs /\
            press_all atof (bs ++ [b]) (mkState acc cur h false zeroed_input)
            = Calculator_HandleButton atof (mkState acc cur h false a) b.
Proof.
  intros D T. destruct (type_operand atof bs acc cur h D T) as [a [Hp Ha]].
  exists a. split; [exact Ha|].
  rewrite press_all_app, Hp, press_all_one. simpl.
  destruct (Calculator_HandleButton atof _ b); reflexivity.
Qed.

(** The first operand and an operator, in a state with no accumulator. *)
Lemma first_operand (atof : list ascii -> double) (bs : list CalculatorButton)
      (bo : CalculatorButton) (acc : double) (cur : ascii) :
  digit_keys bs -> typable (map label0 bs) -> btn_type bo = CALC_BUTTON_OPERATOR ->
  press_all atof (bs ++ [bo]) (mkState acc cur false false zeroed_input)
  = (mkState (entered atof (map label0 bs)) (label0 bo) true false zeroed_input, []).
Proof.
  intros D T O. destruct (operand_then atof bs bo acc cur false D T) as [a [Ha Hp]].
  rewrite Hp, (HandleButton_operator atof (mkState acc cur false false a) bo eq_refl O),
    HandleOperator_eq, Ha.
  reflexivity.
Qed.

(** The second operand and an operator or the equals button, with an
    operator pending. *)
Lemma second_operand (atof : list ascii -> double) (bs : list CalculatorButton)
      (b : CalculatorButton) (acc : double) (cur : ascii) :
  digit_keys bs -> typable (map label0 bs) -> arithmetic_operator cur ->
  let r := Calculator_ApplyOperation acc (entered atof (map label0 bs)) cur false in
  (btn_type b = CALC_BUTTON_OPERATOR ->
   press_all atof (bs ++ [b]) (mkState acc cur true false zeroed_input)
   = (mkState (fst r) (label0 b) true (snd r) zeroed_input, [cur])) /\
  (btn_type b = CALC_BUTTON_EQUALS ->
   press_all atof (bs ++ [b]) (mkState acc cur true false zeroed_input)
   = (mkState (fst r) NUL true (snd r) zeroed_input, [cur])).
Proof.
  intros D T A r. destruct (operand_then atof bs b acc cur true D T) as [a [Ha Hp]].
  pose proof (arithmetic_operator_not_NUL cur A) as N.
  split; intros B; rewrite Hp.
  - rewrite (HandleButton_operator atof (mkState acc cur true false a) b eq_refl B),
      HandleOperator_eq, Ha, N.
    reflexivity.
  - rewrite (HandleButton_equals atof (mkState acc cur true false a) b eq_refl B),
      HandleEquals_eq, Ha, N.
    reflexivity.
Qed.

(** X12.  From the reset state, the keys of a first operand, an operator
    key, the keys of a second operand and the equals key leave the result
    of [Calculator_ApplyOperation] on the two values in the accumulator,
    and its error flag; no operator is pending, the buffer is empty, and
    the operation was applied once.  An operand with no key counts as
    [0.0]. *)
Theorem operand_operator_operand_equals
        (atof : list ascii -> double) (s0 : CalculatorState)
        (da db : list CalculatorButton) (bo be : CalculatorButton) :
  digit_keys da -> typable (map label0 da) ->
  btn_type bo = CALC_BUTTON_OPERATOR -> arithmetic_operator (label0 bo) ->
  digit_keys db -> typable (map label0 db) ->
  btn_type be = CALC_BUTTON_EQUALS ->
  let a := entered atof (map label0 da) in
  let b := entered atof (map label0 db) in
  let r := Calculator_ApplyOperation a b (label0 bo) false in
  press_all atof ((da ++ [bo]) ++ (db ++ [be])) (Calculator_Reset s0)
  = (mkState (fst r) NUL true (snd r) zeroed_input, [label0 bo]).
Proof.
  intros Da Ta O A Db Tb E. cbv zeta.
  rewrite press_all_app.
  change (Calculator_Reset s0) with (mkState Double.zero NUL false false zeroed_input).
  rewrite (first_operand atof da bo Double.zero NUL Da Ta O). cbn [fst snd app].
  pose proof (second_operand atof db be (entered atof (map label0 da)) (label0 bo) Db Tb A)
    as H.
  cbv zeta in H. destruct H as [_ H]. rewrite (H E). reflexivity.
Qed.

Lemma operand_operator_operand_equals_witness :
  press_all atof_decimal
            ((keys ["1"; "."; "5"]%string ++ [key_of "*"]) ++ (keys ["4"]%string ++ [key_of "="]))
            (Calculator_Reset uninitialised)
  = (mkState six NUL true false zeroed_input, ["*"%char]).
Proof.
  refine (operand_operator_operand_equals atof_decimal uninitialised
            (keys ["1"; "."; "5"]%string) (keys ["4"]%string) (key_of "*") (key_of "=")
            _ _ _ _ _ _ _).
  - repeat (apply Forall_cons; [split; [reflexivity | discriminate]|]). apply Forall_nil.
  - split; [vm_compute; intuition discriminate | split; vm_compute; lia].
  - reflexivity.
  - vm_compute. tauto.
  - repeat (apply Forall_cons; [split; [reflexivity | discriminate]|]). apply Forall_nil.
  - split; [vm_compute; intuition discriminate | split; vm_compute; lia].
  - reflexivity.
Defined.

(** With the error flag set, buttons other than clear do nothing. *)
Lemma press_all_blocked (atof : list ascii -> double) (bs : list CalculatorButton) :
  forall s, error s = true ->
            Forall (fun k => btn_type k <> CALC_BUTTON_CLEAR) bs ->
            press_all atof bs s = (s, []).
Proof.
  induction bs as [|k bs IH]; intros s Es F; simpl; [reflexivity|].
  inversion F as [|k' bs' Fk Fbs]; subst.
  rewrite (HandleButton_blocked atof s k Es Fk), (IH s Es Fbs). reflexivity.
Qed.

(** X13.  Operations are applied from left to right as the keys come, with
    no precedence: after [a op1 b op2 c =] from the reset state the
    accumulator holds [(a op1 b) op2 c], provided the first operation did
    not raise the error flag.  When it did, the accumulator stays at the
    [0.0] of the failed division with [op2] pending, and the keys after
    [op2] are ignored. *)
Theorem operations_chain_left_to_right
        (atof : list ascii -> double) (s0 : CalculatorState)
        (da db dc : list CalculatorButton) (bo1 bo2 be : CalculatorButton) :
  digit_keys da -> typable (map label0 da) ->
  btn_type bo1 = CALC_BUTTON_OPERATOR -> arithmetic_operator (label0 bo1) ->
  digit_keys db -> typable (map label0 db) ->
  btn_type bo2 = CALC_BUTTON_OPERATOR -> arithmetic_operator (label0 bo2) ->
  digit_keys dc -> typable (map label0 dc) ->
  btn_type be = CALC_BUTTON_EQUALS ->
  let a := entered atof (map label0 da) in
  let b := entered atof (map label0 db) in
  let c := entered atof (map label0 dc) in
  let r1 := Calculator_ApplyOperation a b (label0 bo1) false in
  let r2 := Calculator_ApplyOperation (fst r1) c (label0 bo2) false in
  let ks := ((da ++ [bo1]) ++ (db ++ [bo2])) ++ (dc ++ [be]) in
  (snd r1 = false ->
   press_all atof ks (Calculator_Reset s0)
   = (mkState (fst r2) NUL true (snd r2) zeroed_input, [label0 bo1; label0 bo2])) /\
  (snd r1 = true ->
   press_all atof ks (Calculator_Reset s0)
   = (mkState Double.zero (label0 bo2) true true zeroed_input, [label0 bo1])).
Proof.
  intros Da Ta O1 A1 Db Tb O2 A2 Dc Tc E. cbv zeta.
  set (r1 := Calculator_ApplyOperation (entered atof (map label0 da))
                                       (entered atof (map label0 db)) (label0 bo1) false).
  assert (H12 : press_all atof ((da ++ [bo1]) ++ (db ++ [bo2])) (Calculator_Reset s0)
                = (mkState (fst r1) (label0 bo2) true (snd r1) zeroed_input, [label0 bo1])).
  { rewrite press_all_app.
    change (Calculator_Reset s0) with (mkState Double.zero NUL false false zeroed_input).
    rewrite (first_operand atof da bo1 Double.zero NUL Da Ta O1). cbn [fst snd app].
    pose proof (second_operand atof db bo2 (entered atof (map label0 da)) (label0 bo1)
                  Db Tb A1) as H.
    cbv zeta in H. destruct H as [H _]. rewrite (H O2). reflexivity. }
  rewrite press_all_app, H12. cbn [fst snd]. split; intros R.
  - rewrite R.
    pose proof (second_operand atof dc be (fst r1) (label0 bo2) Dc Tc A2) as H.
    cbv zeta in H. destruct H as [_ H]. rewrite (H E). reflexivity.
  - rewrite R.
    assert (Z0 : fst r1 = Double.zero).
    { subst r1. unfold Calculator_ApplyOperation in *.
      repeat match goal with
             | R : snd (if ?g then _ else _) = true |- _ => destruct g; simpl in R
             end; try discriminate R; reflexivity. }
    rewrite Z0.
    rewrite press_all_blocked; [reflexivity | reflexivity|].
    apply Forall_app. split.
    + eapply Forall_impl; [|exact Dc]. intros k [T _]. congruence.
    + apply Forall_cons; [congruence | apply Forall_nil].
Qed.

Lemma operations_chain_witness :
  press_all atof_decimal
            (((keys ["1"]%string ++ [key_of "+"]) ++ (keys ["2"]%string ++ [key_of "*"]))
               ++ (keys ["3"]%string ++ [key_of "="]))
            (Calculator_Reset uninitialised)
  = (mkState nine NUL true false zeroed_input, ["+"; "*"]%char).
Proof.
  refine (proj1 (operations_chain_left_to_right atof_decimal uninitialised
                   (keys ["1"]%string) (keys ["2"]%string) (keys ["3"]%string)
                   (key_of "+") (key_of "*") (key_of "=") _ _ _ _ _ _ _ _ _ _ _) _).
  - repeat (apply Forall_cons; [split; [reflexivity | discriminate]|]). apply Forall_nil.
  - split; [vm_compute; intuition discriminate | split; vm_compute; lia].
  - reflexivity.
  - vm_compute. tauto.
  - repeat (apply Forall_cons; [split; [reflexivity | discriminate]|]). apply Forall_nil.
  - split; [vm_compute; intuition discriminate | split; vm_compute; lia].
  - reflexivity.
  - vm_compute. tauto.
  - repeat (apply Forall_cons; [split; [reflexivity | discriminate]|]). apply Forall_nil.
  - split; [vm_compute; intuition discriminate | split; vm_compute; lia].
  - reflexivity.
  - reflexivity.
Defined.


(** X17.  With a result in the accumulator and no operator pending, as
    after the equals key: an operator key at once keeps the result and
    becomes pending; a number typed first and then an operator key
    replaces the result by the number (the operation applied is the one
    for no operator); a number typed and then the equals key changes
    nothing but the buffer, which keeps the typed text. *)
Theorem number_typed_after_a_result
        (atof : list ascii -> double) (acc : double)
        (bs : list CalculatorButton) (b : CalculatorButton) :
  digit_keys bs -> typable (map label0 bs) -> map label0 bs <> [] ->
  let s := mkState acc NUL true false zeroed_input in
  (btn_type b = CALC_BUTTON_OPERATOR ->
   Calculator_HandleButton atof s b = (mkState acc (label0 b) true false zeroed_input, []) /\
   press_all atof (bs ++ [b]) s
   = (mkState (atof (map label0 bs)) (label0 b) true false zeroed_input, [NUL])) /\
  (btn_type b = CALC_BUTTON_EQUALS ->
   exists a, cstr a = map label0 bs /\
             press_all atof (bs ++ [b]) s = (mkState acc NUL true false a, [])).
Proof.
  intros D T N. cbv zeta.
  destruct (operand_then atof bs b acc NUL true D T) as [a [Ha Hp]].
  split; intros B.
  - split.
    + rewrite (HandleButton_operator atof (mkState acc NUL true false zeroed_input) b eq_refl B),
        HandleOperator_eq.
      reflexivity.
    + rewrite Hp,
        (HandleButton_operator atof (mkState acc NUL true false a) b eq_refl B),
        HandleOperator_eq, Ha.
      destruct (map label0 bs) as [|c r] eqn:L; [contradiction|]. reflexivity.
  - exists a. split; [exact Ha|].
    rewrite Hp, (HandleButton_equals atof (mkState acc NUL true false a) b eq_refl B),
      HandleEquals_eq.
    reflexivity.
Qed.

Lemma number_typed_after_a_result_witness :
  press_all atof_decimal (keys ["3"]%string ++ [key_of "+"])
            (mkState nine NUL true false zeroed_input)
  = (mkState (atof_decimal ["3"%char]) "+" true false zeroed_input, [NUL]).
Proof.
  refine (proj2 (proj1 (number_typed_after_a_result atof_decimal nine (keys ["3"]%string)
                          (key_of "+") _ _ _) _)).
  - repeat (apply Forall_cons; [split; [reflexivity | discriminate]|]). apply Forall_nil.
  - split; [vm_compute; intuition discriminate | split; vm_compute; lia].
  - discriminate.
  - reflexivity.
Defined.

Lemma ApplyOperation_error (a b : double) (op : ascii) :
  snd (Calculator_ApplyOperation a b op false) = true ->
  op = "/"%char /\ Double.eqb b Double.zero = true /\
  fst (Calculator_ApplyOperation a b op false) = Double.zero.
Proof.
  unfold Calculator_ApplyOperation.
  destruct (Ascii.eqb op "+"); [discriminate|].
  destruct (Ascii.eqb op "-"); [discriminate|].
  destruct (Ascii.eqb op "*"); [discriminate|].
  destruct (Ascii.eqb_spec op "/") as [E|E]; [|discriminate].
  destruct (Double.eqb b Double.zero); [|discriminate].
  intros _. repeat split. exact E.
Qed.

(** X14.  The error flag is raised by a division by zero and by nothing
    else: when a button sets it, the button is an operator or the equals
    button, there is an accumulator, the pending operator is [/] and the
    value of the buffer compares equal to zero; the accumulator is [0.0]
    afterwards. *)
Theorem error_comes_from_division_by_zero
        (atof : list ascii -> double) (s : CalculatorState) (b : CalculatorButton) :
  error s = false ->
  error (fst (Calculator_HandleButton atof s b)) = true ->
  (btn_type b = CALC_BUTTON_OPERATOR \/ btn_type b = CALC_BUTTON_EQUALS) /\
  hasAccumulator s = true /\
  currentOperator s = "/"%char /\
  Double.eqb (entered atof (cstr (input s))) Double.zero = true /\
  accumulator (fst (Calculator_HandleButton atof s b)) = Double.zero /\
  snd (Calculator_HandleButton atof s b) = ["/"%char].
Proof.
  intros E. destruct s as [acc cur h e a]. simpl in E. subst e.
  unfold Calculator_HandleButton. simpl.
  destruct (btn_type b); simpl.
  - rewrite AppendInput_fields. discriminate.
  - rewrite HandleOperator_eq. destruct h; simpl; [|discriminate].
    destruct (negb (Ascii.eqb cur NUL) || _); simpl; [|discriminate].
    intros R. destruct (ApplyOperation_error _ _ _ R) as [O [Z0 F]].
    rewrite F, O. tauto.
  - discriminate.
  - rewrite HandleEquals_eq. destruct h; simpl.
    + destruct (negb (Ascii.eqb cur NUL)); simpl; [|discriminate].
      intros R. destruct (ApplyOperation_error _ _ _ R) as [O [Z0 F]].
      rewrite F, O. tauto.
    + destruct (cstr a); simpl; discriminate.
Qed.

Lemma error_comes_from_division_witness :
  currentOperator (after ["5"; "/"; "0"]%string) = "/"%char.
Proof.
  refine (proj1 (proj2 (proj2 (error_comes_from_division_by_zero atof_decimal
                                 (after ["5"; "/"; "0"]%string) (key_of "=") _ _)))).
  - reflexivity.
  - reflexivity.
Defined.

(** X15.  The equals button handled a second time, right after the first,
    changes nothing and applies no operation, in whatever state the first
    was handled. *)
Theorem equals_twice_is_equals_once
        (atof : list ascii -> double) (s : CalculatorState) (b1 b2 : CalculatorButton) :
  btn_type b1 = CALC_BUTTON_EQUALS -> btn_type b2 = CALC_BUTTON_EQUALS ->
  Calculator_HandleButton atof (fst (Calculator_HandleButton atof s b1)) b2
  = (fst (Calculator_HandleButton atof s b1), []).
Proof.
  intros T1 T2. destruct s as [acc cur h e a].
  destruct e.
  - rewrite (HandleButton_blocked atof (mkState acc cur h true a) b1 eq_refl)
      by congruence.
    apply HandleButton_blocked; [reflexivity | congruence].
  - rewrite (HandleButton_equals atof (mkState acc cur h false a) b1 eq_refl T1),
      HandleEquals_eq.
    destruct h; cbn [negb andb].
    + destruct (Ascii.eqb cur NUL) eqn:C; cbn [negb fst].
      * rewrite HandleButton_equals; [|reflexivity | exact T2].
        rewrite HandleEquals_eq. cbn [negb andb]. rewrite C. reflexivity.
      * cbv zeta. cbn [fst].
        destruct (snd (Calculator_ApplyOperation acc (entered atof (cstr a)) cur false)) eqn:R.
        -- apply HandleButton_blocked; [reflexivity | congruence].
        -- rewrite HandleButton_equals; [|reflexivity | exact T2].
           rewrite HandleEquals_eq. reflexivity.
    + destruct (cstr a) eqn:X; cbn [fst].
      * rewrite HandleButton_equals; [|reflexivity | exact T2].
        rewrite HandleEquals_eq, X. reflexivity.
      * rewrite HandleButton_equals; [|reflexivity | exact T2].
        rewrite HandleEquals_eq. reflexivity.
Qed.

Lemma equals_twice_witness :
  Calculator_HandleButton atof_decimal (after ["7"; "+"; "3"; "="]%string) (key_of "=")
  = (after ["7"; "+"; "3"; "="]%string, []).
Proof.
  refine (equals_twice_is_equals_once atof_decimal (after ["7"; "+"; "3"]%string)
            (key_of "=") (key_of "=") _ _); reflexivity.
Defined.

Lemma HandleButton_keeps_accumulator (atof : list ascii -> double) (s : CalculatorState)
      (b : CalculatorButton) :
  btn_type b <> CALC_BUTTON_CLEAR -> hasAccumulator s = true ->
  hasAccumulator (fst (Calculator_HandleButton atof s b)) = true.
Proof.
  intros T H. destruct s as [acc cur h e a]. simpl in H. subst h.
  unfold Calculator_HandleButton. simpl.
  destruct e; simpl; [destruct (btn_type b); simpl; congruence|].
  destruct (btn_type b); simpl.
  - rewrite AppendInput_fields. reflexivity.
  - apply after_HandleOperator.
  - congruence.
  - rewrite HandleEquals_eq. simpl. destruct (negb (Ascii.eqb cur NUL)); reflexivity.
Qed.

(** X16.  Only the clear button forgets: over any buttons other than
    clear, an accumulator that exists keeps existing, and a set error flag
    freezes the whole state, with no operation applied. *)
Theorem flags_stay_until_clear
        (atof : list ascii -> double) (bs : list CalculatorButton) (s : CalculatorState) :
  Forall (fun b => btn_type b <> CALC_BUTTON_CLEAR) bs ->
  (hasAccumulator s = true -> hasAccumulator (fst (press_all atof bs s)) = true) /\
  (error s = true -> press_all atof bs s = (s, [])).
Proof.
  intros F. split.
  - revert s. induction F as [|b bs Fb _ IH]; intros s H; simpl; [exact H|].
    pose proof (HandleButton_keeps_accumulator atof s b Fb H) as H1.
    destruct (Calculator_HandleButton atof s b) as [s1 l1]. simpl in H1.
    specialize (IH s1 H1). destruct (press_all atof bs s1). exact IH.
  - intros E. apply press_all_blocked; assumption.
Qed.

Lemma flags_stay_witness :
  hasAccumulator (fst (press_all atof_decimal (keys ["3"; "="; "="; "+"; "."]%string)
                                 (after ["7"; "*"]%string))) = true.
Proof.
  refine (proj1 (flags_stay_until_clear atof_decimal (keys ["3"; "="; "="; "+"; "."]%string)
                   (after ["7"; "*"]%string) _) _).
  - repeat (apply Forall_cons; [discriminate|]). apply Forall_nil.
  - reflexivity.
Defined.

(* ================================================================== *)
(** * Further properties of the hit test and of the loop *)

(** ** The hit test *)

Lemma find_from_spec (bs : list CalculatorButton) (x y : Z) :
  forall k,
    (find_from bs k x y = -1 /\
     forall n, (n < List.length bs)%nat -> contains (nth n bs no_button) x y = false)
    \/ (exists n, (n < List.length bs)%nat /\
                  find_from bs k x y = k + Z.of_nat n /\
                  contains (nth n bs no_button) x y = true /\
                  forall j, (j < n)%nat -> contains (nth j bs no_button) x y = false).
Proof.
  induction bs as [|b bs IH]; intros k; simpl.
  - left. split; [reflexivity | intros n H; lia].
  - destruct (contains b x y) eqn:C.
    + right. exists 0%nat. repeat split; [lia | lia | exact C | intros j H; lia].
    + destruct (IH (k + 1)) as [[F A]|[n [L [F [T A]]]]].
      * left. split; [exact F|]. intros [|n] H; [exact C | apply A; lia].
      * right. exists (S n). repeat split; [lia | lia | exact T|].
        intros [|j] H; [exact C | apply A; lia].
Qed.

Lemma FindButton_spec (W x y : Z) :
  let i := Calculator_FindButton W x y in
  (i = -1 /\ forall j, 0 <= j < 17 -> contains (button_at W j) x y = false)
  \/ (0 <= i < 17 /\ contains (button_at W i) x y = true /\
      forall j, 0 <= j < i -> contains (button_at W j) x y = false).
Proof.
  unfold Calculator_FindButton, button_at.
  assert (L : List.length (buttons W) = 17%nat) by reflexivity.
  destruct (find_from_spec (buttons W) x y 0) as [[F A]|[n [Hn [F [T A]]]]].
  - left. split; [exact F|]. intros j Hj. apply A. lia.
  - right. rewrite F, L in *. rewrite Z.add_0_l, Nat2Z.id.
    split; [lia|]. split; [exact T|]. intros j Hj. apply A. lia.
Qed.

(** X1.  [Calculator_FindButton] returns -1 exactly when no rectangle of
    the table holds the point (edges included); otherwise it returns the
    index, between 0 and 16, of the first rectangle in table order that
    holds it. *)
Theorem FindButton_returns_the_first_hit (W x y : Z) :
  let i := Calculator_FindButton W x y in
  (i = -1 <-> forall j, 0 <= j < 17 -> contains (button_at W j) x y = false) /\
  (i <> -1 ->
   0 <= i < 17 /\ contains (button_at W i) x y = true /\
   forall j, 0 <= j < i -> contains (button_at W j) x y = false) /\
  -1 <= i < 17.
Proof.
  intros i. destruct (FindButton_spec W x y) as [[F A]|[R [T A]]]; fold i in F || fold i in R, T, A.
  - split; [tauto|]. split; [contradiction | lia].
  - split; [|split; [tauto | lia]].
    split; [lia|]. intros N. rewrite (N i R) in T. discriminate.
Qed.

Lemma FindButton_returns_witness :
  contains (button_at panel_width (Calculator_FindButton panel_width 200 300)) 200 300 = true.
Proof.
  refine (proj1 (proj2 (proj1 (proj2 (FindButton_returns_the_first_hit panel_width 200 300)) _))).
  vm_compute. discriminate.
Defined.

(** X2.  For a panel width between 24 and 65535 the rectangles of the table
    lie apart: a point inside the rectangle of one button is inside no
    other, so the order of the table never decides a hit. *)
Theorem button_rectangles_are_disjoint (W i j x y : Z) :
  24 <= W <= 65535 -> 0 <= i < 17 -> 0 <= j < 17 -> i <> j ->
  contains (button_at W i) x y = true -> contains (button_at W j) x y = false.
Proof.
  intros HW Hi Hj N C.
  destruct (contains (button_at W j) x y) eqn:D; [|reflexivity].
  exfalso. apply N.
  rewrite <- (FindButton_inside W i x y HW Hi C). apply FindButton_inside; assumption.
Qed.

Lemma button_rectangles_witness :
  contains (button_at panel_width 1) 60 145 = false.
Proof.
  refine (button_rectangles_are_disjoint panel_width 0 1 60 145 _ _ _ _ _);
    try (unfold panel_width; lia); reflexivity.
Defined.

(** A button returned by the hit test holds the point. *)
Lemma FindButton_returns_hit (W x y : Z) :
  0 <= Calculator_FindButton W x y ->
  contains (button_at W (Calculator_FindButton W x y)) x y = true /\
  Calculator_FindButton W x y < 17.
Proof.
  intros P. destruct (FindButton_spec W x y) as [[E _]|[R [T _]]]; [lia|].
  split; [exact T | lia].
Qed.

Lemma equals_button_row (W x y : Z) :
  y < 326 -> Calculator_FindButton W x y <> 16.
Proof.
  intros Hy F. destruct (FindButton_spec W x y) as [[E _]|[_ [T _]]]; [lia|].
  rewrite F in T. apply contains_spec in T. destruct T as [_ [T _]].
  change (btn_y (button_at W 16)) with 326 in T. lia.
Qed.

(** X3.  The equals button, the last of the table, starts at row 326: a
    point with [y] below 326 is never found as button 16, whatever the
    panel width. *)
Theorem equals_button_needs_y_326 (W x y : Z) :
  y < 326 -> Calculator_FindButton W x y <> 16.
Proof.
  intros Hy F.
  destruct (FindButton_returns_hit W x y) as [T _]; [lia|].
  rewrite F in T. apply contains_spec in T. destruct T as [_ [T _]].
  change (btn_y (button_at W 16)) with 326 in T. lia.
Qed.

Lemma equals_button_witness : Calculator_FindButton panel_width 100 319 <> 16.
Proof. apply (equals_button_needs_y_326 panel_width 100 319). lia. Defined.

(* ================================================================== *)
(** ** The loop as a whole *)

(** The three ways an iteration can go. *)
Lemma loop_body_cases (atof : list ascii -> double) (W : Z) (t : TouchData) (m : MainState) :
  let m' := loop_body atof W t m in
  let p := Calculator_FindButton W (td_x t) (td_y t) in
  (td_pressed t = true /\ 0 <= p /\ p <> lastButton m /\
   state m' = fst (Calculator_HandleButton atof (state m) (button_at W p)) /\
   lastButton m' = p /\
   activations (trace m') = activations (trace m) ++ [p])
  \/ (td_pressed t = true /\ (p = lastButton m \/ p < 0) /\
      state m' = state m /\ lastButton m' = lastButton m /\
      activations (trace m') = activations (trace m))
  \/ (td_pressed t = false /\
      state m' = state m /\
      (lastButton m' = -1 \/ (lastButton m' = lastButton m /\ lastButton m < 0)) /\
      activations (trace m') = activations (trace m)).
Proof.
  cbv zeta. destruct (td_pressed t) eqn:P.
  - destruct (Z.leb_spec 0 (Calculator_FindButton W (td_x t) (td_y t))) as [L|L].
    + destruct (Z.eq_dec (Calculator_FindButton W (td_x t) (td_y t)) (lastButton m)) as [E|E].
      * right; left.
        destruct (loop_body_no_activation atof W t m P (or_introl E)) as [Hs [Hl Ha]].
        tauto.
      * left. destruct (loop_body_activation atof W t m P L E) as [Hs [Hl Ha]]. tauto.
    + right; left.
      destruct (loop_body_no_activation atof W t m P (or_intror L)) as [Hs [Hl Ha]].
      tauto.
  - right; right. split; [reflexivity|].
    unfold loop_body.
    destruct (render_gate_keeps (dispatch atof W t m)) as [Hs [Hl Ha]].
    rewrite Hs, Hl, Ha, (dispatch_released atof W t m P).
    destruct (Z.leb_spec 0 (lastButton m)) as [L|L]; simpl.
    + rewrite activations_app. simpl. rewrite app_nil_r. tauto.
    + split; [reflexivity|]. split; [right; split; [reflexivity | lia] | reflexivity].
Qed.

Lemma run_cons (atof : list ascii -> double) (W : Z) (t : TouchData)
      (ts : list TouchData) (m : MainState) :
  run atof W (t :: ts) m = run atof W ts (loop_body atof W t m).
Proof. reflexivity. Qed.

Lemma run_app (atof : list ascii -> double) (W : Z) (ts us : list TouchData) (m : MainState) :
  run atof W (ts ++ us) m = run atof W us (run atof W ts m).
Proof. unfold run. apply fold_left_app. Qed.

Lemma fst_press_all_cons (atof : list ascii -> double) (b : CalculatorButton)
      (bs : list CalculatorButton) (s : CalculatorState) :
  fst (press_all atof (b :: bs) s)
  = fst (press_all atof bs (fst (Calculator_HandleButton atof s b))).
Proof.
  simpl. destruct (Calculator_HandleButton atof s b) as [s1 l1]. simpl.
  destruct (press_all atof bs s1). reflexivity.
Qed.

(** The activations of a run, the readings they come from, and the engine
    state they lead to. *)
Lemma run_activations (atof : list ascii -> double) (W : Z) (ts : list TouchData) :
  forall m, exists acts,
    activations (trace (run atof W ts m)) = activations (trace m) ++ acts /\
    state (run atof W ts m) = fst (press_all atof (map (button_at W) acts) (state m)) /\
    Forall (fun i => exists t, In t ts /\ td_pressed t = true /\
                               Calculator_FindButton W (td_x t) (td_y t) = i /\ 0 <= i) acts.
Proof.
  induction ts as [|t ts IH]; intros m.
  - exists []. simpl. rewrite app_nil_r. repeat split. apply Forall_nil.
  - rewrite run_cons. destruct (IH (loop_body atof W t m)) as [acts [Ha [Hs Hf]]].
    assert (Hf' : Forall (fun i => exists u, In u (t :: ts) /\ td_pressed u = true /\
                                   Calculator_FindButton W (td_x u) (td_y u) = i /\ 0 <= i)
                         acts).
    { eapply Forall_impl; [|exact Hf]. intros i [u [I R]]. exists u. split; [right; exact I|].
      exact R. }
    destruct (loop_body_cases atof W t m)
      as [[P [L [N [Ss [_ Sa]]]]]|[[_ [_ [Ss [_ Sa]]]]|[_ [Ss [_ Sa]]]]].
    + exists (Calculator_FindButton W (td_x t) (td_y t) :: acts).
      rewrite Ha, Sa, <- app_assoc. split; [reflexivity|]. split.
      * rewrite Hs, Ss. simpl map. rewrite fst_press_all_cons. reflexivity.
      * apply Forall_cons; [|exact Hf']. exists t. split; [left; reflexivity | tauto].
    + exists acts. rewrite Ha, Sa, Hs, Ss. tauto.
    + exists acts. rewrite Ha, Sa, Hs, Ss. tauto.
Qed.

(** X4.  Over any readings, the engine state at the end of a run is the one
    obtained by handling, in order, the buttons the run activated: the loop
    changes the engine through [Calculator_HandleButton] only. *)
Theorem run_presses_the_activated_buttons
        (atof : list ascii -> double) (W : Z) (ts : list TouchData) (m : MainState)
        (acts : list Z) :
  activations (trace (run atof W ts m)) = activations (trace m) ++ acts ->
  state (run atof W ts m) = fst (press_all atof (map (button_at W) acts) (state m)).
Proof.
  intros H. destruct (run_activations atof W ts m) as [acts' [Ha [Hs _]]].
  rewrite Ha in H. apply app_inv_head in H. subst acts'. exact Hs.
Qed.

Lemma run_presses_witness :
  state (run atof_decimal panel_width
             [touch_at 10 100; touch_at 200 300; touch_at 130 230; no_touch]
             (main_init panel_width))
  = fst (press_all atof_decimal (map (button_at panel_width) [0; 15; 10])
                   (state (main_init panel_width))).
Proof.
  refine (run_presses_the_activated_buttons atof_decimal panel_width
            [touch_at 10 100; touch_at 200 300; touch_at 130 230; no_touch]
            (main_init panel_width) [0; 15; 10] _).
  reflexivity.
Defined.

Lemma render_gate_in_table (m : MainState) :
  Forall event_in_table (trace m) -> Forall event_in_table (trace (render_gate m)).
Proof.
  intros F. unfold render_gate. destruct (_ || _); simpl; [|exact F].
  apply Forall_app. split; [exact F|]. apply Forall_cons; [exact I | apply Forall_nil].
Qed.

(** The events of an iteration name buttons of the table. *)
Lemma loop_body_in_table (atof : list ascii -> double) (W : Z) (t : TouchData)
      (m : MainState) :
  -1 <= lastButton m < 17 -> Forall event_in_table (trace m) ->
  -1 <= lastButton (loop_body atof W t m) < 17 /\
  Forall event_in_table (trace (loop_body atof W t m)).
Proof.
  intros L F.
  pose proof (FindButton_spec W (td_x t) (td_y t)) as R. cbv zeta in R.
  assert (Rp : -1 <= Calculator_FindButton W (td_x t) (td_y t) < 17) by (destruct R; lia).
  clear R. unfold loop_body.
  destruct (render_gate_keeps (dispatch atof W t m)) as [_ [Hl _]]. rewrite Hl.
  assert (D : -1 <= lastButton (dispatch atof W t m) < 17 /\
              Forall event_in_table (trace (dispatch atof W t m))).
  { destruct (td_pressed t) eqn:P.
    - destruct (Z.leb_spec 0 (Calculator_FindButton W (td_x t) (td_y t))) as [Q|Q].
      + destruct (Z.eq_dec (Calculator_FindButton W (td_x t) (td_y t)) (lastButton m))
          as [E|E].
        * rewrite (dispatch_no_activation atof W t m P (or_introl E)). split; assumption.
        * rewrite (dispatch_activation atof W t m P Q E). simpl. split; [lia|].
          repeat (apply Forall_app; split); try exact F;
            (apply Forall_cons; [simpl; lia | apply Forall_nil]).
      + rewrite (dispatch_no_activation atof W t m P (or_intror Q)). split; assumption.
    - rewrite (dispatch_released atof W t m P).
      destruct (Z.leb_spec 0 (lastButton m)) as [Q|Q]; simpl; [|split; assumption].
      split; [lia|]. apply Forall_app. split; [exact F|].
      apply Forall_cons; [simpl; lia | apply Forall_nil]. }
  split; [apply D | apply render_gate_in_table, D].
Qed.

(** X5.  From the start of [main], whatever the readings, the held button
    is -1 or an index of the table, and every call of
    [Calculator_HandleButton] and [Calculator_DrawButton] is given an
    element of the table: [buttons] is never indexed out of bounds. *)
Theorem buttons_are_indexed_in_bounds
        (atof : list ascii -> double) (W : Z) (ts : list TouchData) :
  let m := run atof W ts (main_init W) in
  -1 <= lastButton m < 17 /\ Forall event_in_table (trace m).
Proof.
  cbv zeta.
  assert (G : forall m, -1 <= lastButton m < 17 -> Forall event_in_table (trace m) ->
                        -1 <= lastButton (run atof W ts m) < 17 /\
                        Forall event_in_table (trace (run atof W ts m))).
  { induction ts as [|t ts IH]; intros m L F; [split; assumption|].
    rewrite run_cons. destruct (loop_body_in_table atof W t m L F) as [L1 F1].
    apply IH; assumption. }
  apply G.
  - simpl. lia.
  - unfold main_init. simpl trace. apply Forall_cons; [exact I|].
    change (List.length (buttons W)) with 17%nat. simpl.
    repeat (apply Forall_cons; [simpl; lia|]). apply Forall_nil.
Qed.

Lemma run_pressed_activations (atof : list ascii -> double) (W : Z) (ts : list TouchData) :
  Forall (fun t => td_pressed t = true) ts ->
  forall m, exists acts,
    activations (trace (run atof W ts m)) = activations (trace m) ++ acts /\
    adjacent_distinct (lastButton m :: acts).
Proof.
  induction 1 as [|t ts P _ IH]; intros m.
  - exists []. simpl. rewrite app_nil_r. tauto.
  - rewrite run_cons. destruct (IH (loop_body atof W t m)) as [acts [Ha Hd]].
    destruct (loop_body_cases atof W t m)
      as [[_ [L [N [_ [Sl Sa]]]]]|[[_ [_ [_ [Sl Sa]]]]|[Q _]]].
    + exists (Calculator_FindButton W (td_x t) (td_y t) :: acts).
      rewrite Ha, Sa, <- app_assoc. split; [reflexivity|].
      rewrite Sl in Hd. cbn [adjacent_distinct] in Hd |- *. split; [congruence | exact Hd].
    + exists acts. rewrite Ha, Sa. split; [reflexivity|]. rewrite <- Sl. exact Hd.
    + congruence.
Qed.

(** X6.  While the finger stays down, no button is activated twice in a
    row, and the first button activated is not the one that was held: in
    the activations of a run of pressed readings, the held button followed
    by the activations has no two equal neighbours. *)
Theorem continuous_press_never_repeats_a_button
        (atof : list ascii -> double) (W : Z) (ts : list TouchData) (m : MainState)
        (acts : list Z) :
  Forall (fun t => td_pressed t = true) ts ->
  activations (trace (run atof W ts m)) = activations (trace m) ++ acts ->
  adjacent_distinct (lastButton m :: acts).
Proof.
  intros P H. destruct (run_pressed_activations atof W ts P m) as [acts' [Ha Hd]].
  rewrite Ha in H. apply app_inv_head in H. subst acts'. exact Hd.
Qed.

Lemma continuous_press_never_repeats_witness :
  adjacent_distinct (lastButton (main_init panel_width) :: [0; 1; 0]).
Proof.
  refine (continuous_press_never_repeats_a_button atof_decimal panel_width
            [touch_at 10 100; touch_at 12 100; touch_at 62 100; touch_at 70 100;
             touch_at 0 0; touch_at 10 100; touch_at 10 101]
            (main_init panel_width) [0; 1; 0] _ _).
  - repeat (apply Forall_cons; [reflexivity|]). apply Forall_nil.
  - reflexivity.
Defined.

(** A press on button [i] while another button, or none, is held. *)
Lemma press_from_other (atof : list ascii -> double) (W i : Z) (t : TouchData)
      (ts : list TouchData) (m : MainState) :
  24 <= W <= 65535 -> 0 <= i < 17 -> lastButton m <> i ->
  Forall (inside W i) (t :: ts) ->
  activations (trace (run atof W (t :: ts) m)) = activations (trace m) ++ [i] /\
  state (run atof W (t :: ts) m)
  = fst (Calculator_HandleButton atof (state m) (button_at W i)) /\
  lastButton (run atof W (t :: ts) m) = i.
Proof.
  intros HW Hi L H. inversion H as [|t' ts' Ht Hts]; subst.
  destruct (inside_found W i t HW Hi Ht) as [P F].
  pose proof (loop_body_activation atof W t m P) as A. cbv zeta in A. rewrite F in A.
  destruct A as [Hs [Hl Ha]]; [lia | congruence|].
  destruct (run_no_activation atof W i ts (inside_no_activation W HW i ts Hi Hts)
              (loop_body atof W t m) Hl) as [Hs' [Hl' Ha']].
  rewrite run_cons. cbv zeta in Hs', Hl', Ha'. rewrite Hs', Hl', Ha', Hs, Ha. tauto.
Qed.

(** X7.  An iteration with the finger up leaves the engine alone, resets
    the touch status to (0, 0, not pressed) and leaves no button held;
    after it a press inside any button activates that button, also the one
    held before. *)
Theorem release_rearms_the_buttons
        (atof : list ascii -> double) (W i : Z) (u t : TouchData) (m : MainState) :
  24 <= W <= 65535 -> 0 <= i < 17 -> -1 <= lastButton m ->
  td_pressed u = false -> inside W i t ->
  let m1 := loop_body atof W u m in
  let m2 := loop_body atof W t m1 in
  state m1 = state m /\ lastButton m1 = -1 /\ touchStatus m1 = mkTouch 0 0 false /\
  activations (trace m1) = activations (trace m) /\
  activations (trace m2) = activations (trace m) ++ [i] /\
  state m2 = fst (Calculator_HandleButton atof (state m) (button_at W i)) /\
  lastButton m2 = i.
Proof.
  intros HW Hi L U Ht. cbv zeta.
  destruct (loop_body_cases atof W u m)
    as [[P _]|[[P _]|[_ [Ss [Sl Sa]]]]]; [congruence | congruence|].
  assert (Sl' : lastButton (loop_body atof W u m) = -1) by lia.
  assert (St : touchStatus (loop_body atof W u m) = mkTouch 0 0 false).
  { unfold loop_body, render_gate. rewrite (dispatch_released atof W u m U).
    destruct (0 <=? lastButton m); simpl; destruct (_ || _); reflexivity. }
  destruct (first_touch_activates atof W HW i t (loop_body atof W u m) Hi Sl' Ht)
    as [Hs [Hl Ha]].
  rewrite Hs, Hl, Ha, Ss, Sa. tauto.
Qed.

Lemma release_rearms_witness :
  activations (trace (run atof_decimal panel_width
                          [touch_at 10 100; no_touch; touch_at 10 100]
                          (main_init panel_width)))
  = [0; 0].
Proof.
  refine (proj1 (proj2 (proj2 (proj2 (proj2
            (release_rearms_the_buttons atof_decimal panel_width 0 no_touch (touch_at 10 100)
               (run atof_decimal panel_width [touch_at 10 100] (main_init panel_width))
               _ _ _ _ _)))))).
  - unfold panel_width; lia.
  - lia.
  - vm_compute. discriminate.
  - reflexivity.
  - split; reflexivity.
Defined.

(** X8.  A press that starts inside button [i] with no button held and
    moves, without lifting, inside another button [j] activates [i] and
    then [j], each once, however many iterations it stays on either; the
    engine handles the two buttons in that order. *)
Theorem drag_activates_each_button_once
        (atof : list ascii -> double) (W i j : Z) (t u : TouchData) (ts us : list TouchData)
        (m : MainState) :
  24 <= W <= 65535 -> 0 <= i < 17 -> 0 <= j < 17 -> i <> j ->
  lastButton m = -1 ->
  Forall (inside W i) (t :: ts) -> Forall (inside W j) (u :: us) ->
  let m' := run atof W ((t :: ts) ++ (u :: us)) m in
  activations (trace m') = activations (trace m) ++ [i; j] /\
  state m' = fst (press_all atof [button_at W i; button_at W j] (state m)) /\
  lastButton m' = j.
Proof.
  intros HW Hi Hj N L Hti Htj. cbv zeta. rewrite run_app.
  destruct (press_from_other atof W i t ts m HW Hi) as [Ha [Hs Hl]]; [lia | exact Hti|].
  destruct (press_from_other atof W j u us (run atof W (t :: ts) m) HW Hj)
    as [Ha' [Hs' Hl']]; [congruence | exact Htj|].
  rewrite Ha', Hs', Hl', Ha, Hs, <- app_assoc. split; [reflexivity|]. split; [|reflexivity].
  rewrite fst_press_all_cons, press_all_one. reflexivity.
Qed.

Lemma drag_witness :
  activations (trace (run atof_decimal panel_width
                          ([touch_at 10 100; touch_at 40 100] ++ [touch_at 70 100; touch_at 90 100])
                          (main_init panel_width)))
  = activations (trace (main_init panel_width)) ++ [0; 1].
Proof.
  refine (proj1 (drag_activates_each_button_once atof_decimal panel_width 0 1
                   (touch_at 10 100) (touch_at 70 100) [touch_at 40 100] [touch_at 90 100]
                   (main_init panel_width) _ _ _ _ _ _ _)).
  - unfold panel_width; lia.
  - lia.
  - lia.
  - lia.
  - reflexivity.
  - repeat (apply Forall_cons; [split; reflexivity|]). apply Forall_nil.
  - repeat (apply Forall_cons; [split; reflexivity|]). apply Forall_nil.
Defined.

(* ================================================================== *)
(** ** The redraw *)

Lemma TouchStatus_eq (a b : TouchStatus) :
  Bool.eqb (touch_pressed a) (touch_pressed b) = true ->
  (touch_x a =? touch_x b) = true -> (touch_y a =? touch_y b) = true -> a = b.
Proof.
  destruct a, b. simpl. intros P X Y.
  apply eqb_prop in P. apply Z.eqb_eq in X, Y. congruence.
Qed.

Lemma render_gate_cases (m : MainState) :
  (render_gate m = m /\ stateDirty m = false /\ lastRenderedStatus m = touchStatus m)
  \/ render_gate m
     = mkMain (state m) (lastButton m) (touchStatus m) (touchStatus m) false
              (trace m ++ [DrawDisplay_call (state m) (touchStatus m)]).
Proof.
  unfold render_gate.
  destruct (stateDirty m) eqn:D; simpl; [right; reflexivity|].
  destruct (Bool.eqb _ _) eqn:P; simpl; [|right; reflexivity].
  destruct (touch_x _ =? _) eqn:X; simpl; [|right; reflexivity].
  destruct (touch_y _ =? _) eqn:Y; simpl; [|right; reflexivity].
  left. split; [reflexivity|]. split; [reflexivity|].
  symmetry. apply TouchStatus_eq; assumption.
Qed.

(** X9.  At the end of every iteration, from any state of the loop, the
    dirty flag is clear and the last rendered touch status is the current
    one: no change of the engine or of the pointer waits for a later
    iteration to be drawn. *)
Theorem display_is_in_step_after_every_iteration
        (atof : list ascii -> double) (W : Z) (t : TouchData) (m : MainState) :
  let m' := loop_body atof W t m in
  stateDirty m' = false /\ lastRenderedStatus m' = touchStatus m'.
Proof.
  cbv zeta. unfold loop_body.
  destruct (render_gate_cases (dispatch atof W t m)) as [[E [D R]]|E]; rewrite E.
  - split; assumption.
  - split; reflexivity.
Qed.

Lemma last_display_app (tr1 tr2 : list Event) :
  last_display (tr1 ++ tr2)
  = match last_display tr2 with
    | Some d => Some d
    | None => last_display tr1
    end.
Proof.
  induction tr1 as [|e r IH]; simpl.
  - destruct (last_display tr2); reflexivity.
  - rewrite IH. destruct (last_display tr2); reflexivity.
Qed.

(** [dispatch] never draws the display, and changes the engine only with
    the dirty flag set. *)
Lemma dispatch_display (atof : list ascii -> double) (W : Z) (t : TouchData) (m : MainState) :
  let d := dispatch atof W t m in
  last_display (trace d) = last_display (trace m) /\
  lastRenderedStatus d = lastRenderedStatus m /\
  (stateDirty d = true \/ state d = state m).
Proof.
  unfold dispatch. destruct (td_pressed t); simpl.
  - destruct (_ && _); simpl.
    + rewrite !last_display_app. simpl. tauto.
    + tauto.
  - destruct (0 <=? lastButton m); simpl.
    + rewrite last_display_app. simpl. tauto.
    + tauto.
Qed.

Lemma loop_body_display (atof : list ascii -> double) (W : Z) (t : TouchData)
      (m : MainState) :
  last_display (trace m) = Some (state m, touchStatus m) ->
  lastRenderedStatus m = touchStatus m ->
  let m' := loop_body atof W t m in
  last_display (trace m') = Some (state m', touchStatus m') /\
  lastRenderedStatus m' = touchStatus m'.
Proof.
  intros J R. cbv zeta. unfold loop_body.
  destruct (dispatch_display atof W t m) as [Hd [Hr Hs]].
  destruct (render_gate_cases (dispatch atof W t m)) as [[E [D R']]|E]; rewrite E.
  - split; [|exact R'].
    destruct Hs as [Hs|Hs]; [congruence|].
    rewrite Hd, J, Hs, <- R', Hr, R. reflexivity.
  - simpl. rewrite last_display_app. simpl. split; reflexivity.
Qed.

(** X10.  From the start of [main], after any number of iterations the
    latest [Calculator_DrawDisplay] was given the engine state and the
    touch status as they are now: the display is never stale. *)
Theorem display_shows_the_current_state
        (atof : list ascii -> double) (W : Z) (ts : list TouchData) :
  let m := run atof W ts (main_init W) in
  last_display (trace m) = Some (state m, touchStatus m).
Proof.
  cbv zeta.
  assert (G : forall m, last_display (trace m) = Some (state m, touchStatus m) ->
                        lastRenderedStatus m = touchStatus m ->
                        last_display (trace (run atof W ts m))
                        = Some (state (run atof W ts m), touchStatus (run atof W ts m))).
  { induction ts as [|t ts IH]; intros m J R; [exact J|].
    rewrite run_cons. destruct (loop_body_display atof W t m J R) as [J1 R1].
    apply IH; assumption. }
  apply G; reflexivity.
Qed.

(* ================================================================== *)
(** ** The labels *)

(** The placement of a one-character label in a button that is wide and
    high enough and lies in the [uint16_t] range. *)
Lemma label_position_fits (b : CalculatorButton) :
  String.length (btn_label b) = 1%nat ->
  11 <= btn_w b -> 18 <= btn_h b ->
  0 <= btn_x b -> btn_x b + btn_w b < 65536 ->
  0 <= btn_y b -> btn_y b + btn_h b < 65536 ->
  exists textX textY,
    label_position b = (11, textX, textY) /\
    btn_x b <= textX /\ textX + 11 <= btn_x b + btn_w b /\
    btn_y b <= textY /\ textY + 18 <= btn_y b + btn_h b /\
    0 <= (btn_x b + btn_w b - (textX + 11)) - (textX - btn_x b) <= 1 /\
    0 <= (btn_y b + btn_h b - (textY + 18)) - (textY - btn_y b) <= 1.
Proof.
  intros Hl Hw Hh Hx Hxw Hy Hyh.
  unfold label_position. rewrite Hl.
  change (uint16 (Z.of_nat 1 * 11)) with 11.
  rewrite !Z.quot_div_nonneg by lia.
  pose proof (Z.div_mod (btn_w b - 11) 2 ltac:(lia)) as Dw.
  pose proof (Z.mod_pos_bound (btn_w b - 11) 2 ltac:(lia)) as Bw.
  pose proof (Z.div_mod (btn_h b - 18) 2 ltac:(lia)) as Dh.
  pose proof (Z.mod_pos_bound (btn_h b - 18) 2 ltac:(lia)) as Bh.
  rewrite !uint16_small by lia.
  eexists. eexists. split; [reflexivity|]. lia.
Qed.

(** X18.  On a panel at least 68 wide, [Calculator_DrawButton] places the
    label of every button of the table inside the rectangle of the button:
    the text, 11 wide and 18 high, lies within the four edges, and it is
    centred, the margins on opposite sides differing by one pixel at
    most. *)
Theorem labels_are_centred_in_their_buttons (W : Z) (b : CalculatorButton) :
  68 <= W <= 65535 -> In b (buttons W) ->
  exists textX textY,
    label_position b = (11, textX, textY) /\
    btn_x b <= textX /\ textX + 11 <= btn_x b + btn_w b /\
    btn_y b <= textY /\ textY + 18 <= btn_y b + btn_h b /\
    0 <= (btn_x b + btn_w b - (textX + 11)) - (textX - btn_x b) <= 1 /\
    0 <= (btn_y b + btn_h b - (textY + 18)) - (textY - btn_y b) <= 1.
Proof.
  intros HW Hb.
  assert (Hbw : 11 <= BUTTON_WIDTH W <= 16377).
  { pose proof (BUTTON_WIDTH_range W ltac:(lia)) as R. split; [|lia].
    unfold BUTTON_WIDTH, BUTTON_START_X, BUTTON_SPACING, BUTTON_COLUMNS.
    rewrite Z.quot_div_nonneg by lia. apply Z.div_le_lower_bound; lia. }
  unfold buttons, key, column_x, row_y in Hb.
  unfold BUTTON_START_X, BUTTON_START_Y, DISPLAY_HEIGHT, BUTTON_HEIGHT, BUTTON_SPACING in Hb.
  revert Hbw Hb. generalize (BUTTON_WIDTH W). intros bw Hbw.
  rewrite !uint16_small by lia. intros Hb.
  cbn [In] in Hb.
  repeat (destruct Hb as [Hb|Hb];
          [subst b; apply label_position_fits; cbn [btn_label btn_x btn_y btn_w btn_h];
           first [reflexivity | lia]|]).
  destruct Hb.
Qed.

Lemma labels_are_centred_witness :
  exists textX textY,
    label_position (key_of "=") = (11, textX, textY) /\
    btn_x (key_of "=") <= textX /\ textX + 11 <= btn_x (key_of "=") + btn_w (key_of "=") /\
    btn_y (key_of "=") <= textY /\ textY + 18 <= btn_y (key_of "=") + btn_h (key_of "=") /\
    0 <= (btn_x (key_of "=") + btn_w (key_of "=") - (textX + 11))
         - (textX - btn_x (key_of "=")) <= 1 /\
    0 <= (btn_y (key_of "=") + btn_h (key_of "=") - (textY + 18))
         - (textY - btn_y (key_of "=")) <= 1.
Proof.
  refine (labels_are_centred_in_their_buttons panel_width (key_of "=") _ _).
  - unfold panel_width; lia.
  - in_table.
Defined.

(* ================================================================== *)
(** ** Readings above the last row *)

Lemma buttons_above_the_last_row (W i : Z) :
  0 <= i < 16 ->
  In (button_at W i) (buttons W) /\ btn_type (button_at W i) <> CALC_BUTTON_EQUALS.
Proof.
  intros Hi.
  assert (C : i = 0 \/ i = 1 \/ i = 2 \/ i = 3 \/ i = 4 \/ i = 5 \/ i = 6 \/ i = 7 \/ i = 8
              \/ i = 9 \/ i = 10 \/ i = 11 \/ i = 12 \/ i = 13 \/ i = 14 \/ i = 15) by lia.
  decompose [or] C; subst i; (split; [|discriminate]);
    unfold button_at, buttons; cbv [Z.to_nat Pos.to_nat Pos.iter_op Nat.add nth];
    cbn [In]; tauto.
Qed.

(** X19.  If every reading has [y] below 326, as on a panel of 320 rows,
    the loop started by [main] never activates the equals button, and the
    engine, driven by the buttons the loop activates, passes
    [Calculator_ApplyOperation] only [+], [-], [*] or [/]: its default
    branch is never taken. *)
Theorem readings_above_row_326_never_reach_equals
        (atof : list ascii -> double) (W : Z) (ts : list TouchData) (acts : list Z) :
  Forall (fun t => td_y t < 326) ts ->
  activations (trace (run atof W ts (main_init W)))
  = activations (trace (main_init W)) ++ acts ->
  ~ In 16 acts /\
  Forall arithmetic_operator
         (snd (press_all atof (map (button_at W) acts) (state (main_init W)))).
Proof.
  intros Hy H.
  destruct (run_activations atof W ts (main_init W)) as [acts' [Ha [_ Hf]]].
  rewrite Ha in H. apply app_inv_head in H. subst acts'.
  assert (R : Forall (fun i => 0 <= i < 16) acts).
  { eapply Forall_impl; [|exact Hf]. intros i [t [It [_ [F P]]]].
    pose proof (FindButton_spec W (td_x t) (td_y t)) as S. cbv zeta in S.
    rewrite Forall_forall in Hy.
    pose proof (equals_button_row W (td_x t) (td_y t) (Hy t It)) as N.
    rewrite F in *. destruct S; lia. }
  split.
  - intros I. rewrite Forall_forall in R. specialize (R 16 I). lia.
  - apply (press_all_operators_without_equals atof W).
    + apply Forall_map. eapply Forall_impl; [|exact R].
      intros i Hi. apply buttons_above_the_last_row. exact Hi.
    + apply Forall_map. eapply Forall_impl; [|exact R].
      intros i Hi. apply buttons_above_the_last_row. exact Hi.
    + discriminate.
Qed.

Lemma readings_above_row_326_witness :
  ~ In 16 [0; 15; 3; 0].
Proof.
  refine (proj1 (readings_above_row_326_never_reach_equals atof_decimal panel_width
                   [touch_at 10 100; touch_at 200 319; touch_at 200 100; touch_at 100 325;
                    touch_at 10 100]
                   [0; 15; 3; 0] _ _)).
  - repeat (apply Forall_cons; [simpl; lia|]). apply Forall_nil.
  - reflexivity.
Defined.
